(** * kemics/ebay: the request pipeline of the eBay REST client (ebay.go)

    A shallow embedding of [src/ebay.go]: client construction
    ([NewClient], [NewSandboxClient], [NewCustomClient], [newClient]),
    request construction ([NewRequest]), the round trip ([Do]), the error
    decoder ([CheckResponse]) and the error predicate ([IsError]).

    The Go packages the file imports (net/url, encoding/json, net/http,
    net/http/httputil) are not part of the repository.  They are an
    interface here, the class [GoLib]; every theorem about the functions of
    ebay.go holds for every implementation of that interface.  [Sim], at the
    end of the definitions, is one executable implementation; it is what the
    concrete runs are evaluated on. *)

From Stdlib Require Import String Ascii List ZArith Bool Lia.
Import ListNotations.
Local Open Scope string_scope.
Local Open Scope Z_scope.

Set Implicit Arguments.
Set Warnings "-register-all".
#[local] Unset Elimination Schemes.

(* ===================================================================== *)
(** ** Go strings: the two functions of package strings that ebay.go calls *)
(* ===================================================================== *)

Module GoStrings.

(** [strings.HasPrefix]:
    [len(s) >= len(prefix) && s[:len(prefix)] == prefix]. *)
Definition HasPrefix (s prefix : string) : bool :=
  (String.length prefix <=? String.length s)%nat
  && String.eqb (substring 0 (String.length prefix) s) prefix.

(** [strings.HasSuffix]:
    [len(s) >= len(suffix) && s[len(s)-len(suffix):] == suffix]. *)
Definition HasSuffix (s suffix : string) : bool :=
  (String.length suffix <=? String.length s)%nat
  && String.eqb
       (substring (String.length s - String.length suffix)
                  (String.length suffix) s)
       suffix.

End GoStrings.
Import GoStrings.

(* ===================================================================== *)
(** ** Data of ebay.go *)
(* ===================================================================== *)

(** The anonymous struct of [Error.Parameters]. *)
Record ErrorParameter : Type := mkErrorParameter {
  Name  : string;
  Value : string
}.

(** [type Error struct]: one error entry of an eBay API answer.  Go's [int]
    is a 64-bit integer; it is only compared for equality here. *)
Record Error : Type := mkError {
  ErrorID     : Z;
  Domain      : string;
  SubDomain   : string;
  Category    : string;
  Message     : string;
  LongMessage : string;
  InputRefIds : list string;
  OuputRefIds : list string;
  Parameters  : list ErrorParameter
}.

(** The zero value of [Error]. *)
Definition Error_zero : Error :=
  mkError 0 "" "" "" "" "" [] [] [].

(** An [io.ReadCloser] over a finite body: what has not been read yet, and
    whether [Close] was called. *)
Record ReadCloser : Type := mkBody {
  unread : string;
  closed : bool
}.

(** The part of [http.Response] the file reads: the status code and the
    body stream. *)
Record Response : Type := mkResponse {
  StatusCode : Z;
  Body       : ReadCloser
}.

(** [type ErrorData struct].  [response] is a pointer in Go; [Error()] reads
    only [StatusCode] through it. *)
Record ErrorData : Type := mkErrorData {
  Errors      : list Error;
  response    : Response;
  requestDump : string
}.

(** Go's [error] interface values that occur in ebay.go.  The nil interface
    is [None : option error] throughout.  [ErrorDataRef p] is an interface
    value of dynamic type [*ErrorData]; the pointer itself may be nil. *)
Inductive error : Type :=
| fundamental  (msg : string)            (* errors.New of github.com/pkg/errors *)
| withStack    (cause : error)           (* errors.WithStack *)
| errorString  (msg : string)            (* fmt.Errorf *)
| libError     (pkg msg : string)        (* an error made by an imported package *)
| ErrorDataRef (p : option ErrorData).   (* *ErrorData *)

(** [errors.New] of github.com/pkg/errors. *)
Definition errors_New (msg : string) : error := fundamental msg.

(** [errors.WithStack]: nil stays nil. *)
Definition errors_WithStack (err : option error) : option error :=
  match err with
  | None => None
  | Some e => Some (withStack e)
  end.

(** A Go result pair [(T, error)] in which exactly one side is set. *)
Inductive result (T : Type) : Type :=
| Ok  (v : T)
| Err (e : error).
Arguments Ok {T} v.
Arguments Err {T} e.

(** A Go call either returns or panics. *)
Inductive outcome (A : Type) : Type :=
| Returns (a : A)
| Panics  (msg : string).
Arguments Returns {A} a.
Arguments Panics {A} msg.

Definition nil_dereference : string :=
  "runtime error: invalid memory address or nil pointer dereference".

(** [context.Context], as far as a transport looks at it. *)
Inductive Context : Type :=
| Background
| Done (cause : error).

(** The part of [http.Request] that ebay.go and its options touch; [U] is
    the type of parsed URLs. *)
Record Request (U : Type) : Type := mkRequest {
  Method  : string;
  URL     : U;
  Header  : list (string * list string);
  ReqBody : option string;
  ctx     : Context
}.

(** [req.WithContext(ctx)]: a shallow copy with the context replaced. *)
Definition WithContext {U} (req : Request U) (c : Context) : Request U :=
  mkRequest (Method req) (URL req) (Header req) (ReqBody req) c.

(** [*http.Client] seen from ebay.go: its [Do] method. *)
Definition HttpClient (U : Type) : Type := Request U -> result Response.

(* ===================================================================== *)
(** ** The imported packages, as an interface *)
(* ===================================================================== *)

Class GoLib : Type := {
  (** [url.URL] *)
  URLT : Type;
  (** Go values handed to [NewRequest] as [body] (the non-nil ones). *)
  BodyValue : Type;
  (** Go values behind the pointer handed to [Do] as [v]. *)
  Dest : Type;

  (** [url.Parse] *)
  url_Parse : string -> result URLT;
  (** the [Scheme] field *)
  url_Scheme : URLT -> string;
  (** the method [ResolveReference] of [*URL]; the receiver may be nil *)
  url_ResolveReference : option URLT -> URLT -> outcome URLT;
  (** the method [String] of [*URL] *)
  url_String : URLT -> string;

  (** [json.Encoder.Encode] into an empty buffer, given the encoder's
      escapeHTML setting: the bytes written, or the error. *)
  json_Encode : bool -> BodyValue -> result string;
  (** [json.Valid] *)
  json_Valid : string -> bool;
  (** The first step of [json.Decoder.Decode]: scan the stream for the next
      complete JSON value.  Returns that value's text. *)
  json_readValue : string -> result string;
  (** What the body reader still holds once a decoder has read from it. *)
  json_Decoder_unread : string -> string;
  (** The second step of [Decode], for a target of type [*ErrorData]: only
      the exported field [Errors] is reachable. *)
  json_unmarshal_Errors : string -> list Error -> list Error * option error;
  (** The second step of [Decode], for the caller's destination. *)
  json_unmarshal : string -> Dest -> Dest * option error;

  (** [http.NewRequest] *)
  http_NewRequest : string -> string -> option string -> result (Request URLT);
  (** [http.DefaultClient] *)
  http_DefaultClient : HttpClient URLT;
  (** [httputil.DumpRequest] *)
  httputil_DumpRequest : Request URLT -> bool -> result string
}.

(* ===================================================================== *)
(** ** Calls, with the order in which they reach the imported packages *)
(* ===================================================================== *)

(** One event per call into an imported package. *)
Inductive event : Type :=
| EvURLParse (rawURL : string)
| EvResolveReference
| EvURLString
| EvJSONEncode
| EvHTTPNewRequest (method url : string)
| EvDumpRequest
| EvClientDo
| EvJSONDecode
| EvBodyClose.

(** A computation: the calls it made, oldest first, and how it ended. *)
Definition M (A : Type) : Type := (list event * outcome A)%type.

Definition ret {A} (a : A) : M A := ([], Returns a).

Definition bind {A B} (m : M A) (f : A -> M B) : M B :=
  match m with
  | (t, Returns a) => let (t', r) := f a in (app t t', r)
  | (t, Panics msg) => (t, Panics msg)
  end.

(** A library call that returns. *)
Definition call {A} (ev : event) (a : A) : M A := ([ev], Returns a).

(** A library call that may panic. *)
Definition call_outcome {A} (ev : event) (o : outcome A) : M A := ([ev], o).

(** How a computation ended, the calls left aside. *)
Definition final {A} (m : M A) : outcome A := snd m.

Declare Scope go_scope.
Delimit Scope go_scope with go.
Notation "x <- c1 ;; c2" := (bind c1 (fun x => c2))
  (at level 61, c1 at next level, right associativity) : go_scope.
Notation "' p <- c1 ;; c2" := (bind c1 (fun x => let 'p := x in c2))
  (at level 61, p pattern, c1 at next level, right associativity) : go_scope.
Local Open Scope go_scope.

(* ===================================================================== *)
(** ** ebay.go *)
(* ===================================================================== *)

(** eBay URLs. *)
Definition BaseURL : string := "https://api.ebay.com/".
Definition SandboxBaseURL : string := "https://api.sandbox.ebay.com/".

(** [for _, e := range errData.Errors { for _, code := range codes { ... } }]
    of [IsError]: the inner loop, then the outer one.  Each returns at the
    first match. *)
Fixpoint code_matches (id : Z) (codes : list Z) : bool :=
  match codes with
  | [] => false
  | code :: rest => if id =? code then true else code_matches id rest
  end.

Fixpoint errors_match (es : list Error) (codes : list Z) : bool :=
  match es with
  | [] => false
  | e :: rest =>
      if code_matches (ErrorID e) codes then true else errors_match rest codes
  end.

(** [func IsError(err error, codes ...int) bool].  The type assertion
    [err.( *ErrorData)] succeeds for every interface value of dynamic type
    [*ErrorData], a nil pointer included; [errData.Errors] then dereferences
    it. *)
Definition IsError (err : option error) (codes : list Z) : outcome bool :=
  match err with
  | None => Returns false
  | Some (ErrorDataRef p) =>
      match p with
      | None => Panics nil_dereference
      | Some errData => Returns (errors_match (Errors errData) codes)
      end
  | Some _ => Returns false
  end.

(** [type Client struct], over the type [U] of parsed URLs.  The field
    [Buy] holds pointers back to the client itself and nothing else; it is
    left out. *)
Record Client (U : Type) : Type := mkClient {
  client  : HttpClient U;
  baseURL : option U
}.

(** What a call of [Do] leaves behind: the returned error, the value behind
    [v] (none for a nil [v]), and the response, if one arrived.  [D] is the
    type of destinations. *)
Record DoResult (D : Type) : Type := mkDoResult {
  do_err  : option error;
  do_dest : option D;
  do_resp : option Response
}.

Section Ebay.

Context {L : GoLib}.

(** [type Opt func( *http.Request)]: an option mutates the request it is
    given; here it returns the request as it left it. *)
Definition Opt : Type := Request URLT -> Request URLT.

(** [func newClient(httpclient *http.Client, baseURL string) *Client] *)
Definition newClient (httpclient : option (HttpClient URLT))
    (baseURL : string) : M (Client URLT) :=
  let httpclient :=
    match httpclient with
    | None => http_DefaultClient
    | Some h => h
    end in
  r <- call (EvURLParse baseURL) (url_Parse baseURL) ;;
  (* url, _ := url.Parse(baseURL): the error is dropped, url is nil then *)
  let url := match r with Ok u => Some u | Err _ => None end in
  ret (mkClient httpclient url).

(** [func NewClient(httpclient *http.Client) *Client] *)
Definition NewClient (httpclient : option (HttpClient URLT)) : M (Client URLT) :=
  newClient httpclient BaseURL.

(** [func NewSandboxClient(httpclient *http.Client) *Client] *)
Definition NewSandboxClient (httpclient : option (HttpClient URLT)) : M (Client URLT) :=
  newClient httpclient SandboxBaseURL.

(** [func NewCustomClient(httpclient *http.Client, baseURL string) ( *Client, error)] *)
Definition NewCustomClient (httpclient : option (HttpClient URLT))
    (baseURL : string) : M (result (Client URLT)) :=
  if negb (HasSuffix baseURL "/") then
    ret (Err (errorString
                ("BaseURL " ++ baseURL ++ " must have a trailing slash")))
  else
    c <- newClient httpclient baseURL ;;
    ret (Ok c).

(** The method [Parse] of [*URL] in net/url, which [NewRequest] calls on
    [c.baseURL]:
    [refURL, err := Parse(ref); if err != nil { return nil, err };
     return u.ResolveReference(refURL), nil]. *)
Definition URL_Parse (u : option URLT) (ref : string) : M (result URLT) :=
  r <- call (EvURLParse ref) (url_Parse ref) ;;
  match r with
  | Err err => ret (Err err)
  | Ok refURL =>
      x <- call_outcome EvResolveReference (url_ResolveReference u refURL) ;;
      ret (Ok x)
  end.

(** What net/url does with a nil receiver in [ResolveReference]: its first
    statement after the copy, [if ref.Scheme == "" { url.Scheme = u.Scheme }],
    dereferences [u]. *)
Definition nil_receiver_panics : Prop :=
  forall ref, url_Scheme ref = "" ->
              url_ResolveReference None ref = Panics nil_dereference.

(** The error of [NewRequest] for a path with a leading slash. *)
Definition invalid_path : error :=
  errors_New "url should always be specified without a preceding slash".

(** The block [if body != nil { ... }] of [NewRequest]: the encoder is
    created on a fresh buffer, HTML escaping is switched off, and the body
    is encoded. *)
Definition encode_body (body : option BodyValue) : M (result (option string)) :=
  match body with
  | None => ret (Ok None)
  | Some b =>
      (* enc.SetEscapeHTML(false) *)
      let escapeHTML := false in
      r <- call EvJSONEncode (json_Encode escapeHTML b) ;;
      match r with
      | Err err => ret (Err err)
      | Ok buf => ret (Ok (Some buf))
      end
  end.

(** [for _, opt := range opts { opt(req) }] *)
Definition apply_opts (opts : list Opt) (req : Request URLT) : Request URLT :=
  fold_left (fun r opt => opt r) opts req.

(** [func (c *Client) NewRequest(method, url string, body interface{}, opts ...Opt)
     ( *http.Request, error)] *)
Definition NewRequest (c : Client URLT) (method url : string)
    (body : option BodyValue) (opts : list Opt) : M (result (Request URLT)) :=
  if HasPrefix url "/" then
    ret (Err invalid_path)
  else
    r <- URL_Parse (baseURL c) url ;;
    match r with
    | Err err => ret (Err (withStack err))
    | Ok u =>
        b <- encode_body body ;;
        match b with
        | Err err => ret (Err err)
        | Ok buf =>
            s <- call EvURLString (url_String u) ;;
            rq <- call (EvHTTPNewRequest method s) (http_NewRequest method s buf) ;;
            match rq with
            | Err err => ret (Err (withStack err))
            | Ok req => ret (Ok (apply_opts opts req))
            end
        end
    end.


(** The payload [NewRequest] hands to [http.NewRequest] for [body]. *)
Definition payload (body : option BodyValue) : result (option string) :=
  match body with
  | None => Ok None
  | Some b =>
      match json_Encode false b with
      | Ok buf => Ok (Some buf)
      | Err err => Err err
      end
  end.

(** [errReadOnClosedResBody] of net/http: what [Read] returns on a
    response body after [Close]. *)
Definition errReadOnClosedResBody : error :=
  libError "net/http" "http: read on closed response body".

(** What a [json.Decoder] on a response body gets as its next value: the
    read error if the body is closed, and else what [readValue] finds in
    the bytes still unread. *)
Definition Body_readValue (body : ReadCloser) : result string :=
  if closed body then Err errReadOnClosedResBody
  else json_readValue (unread body).

(** The body once a decoder has read from it. *)
Definition Body_after_read (body : ReadCloser) : ReadCloser :=
  if closed body then body
  else mkBody (json_Decoder_unread (unread body)) false.

(** [json.NewDecoder(r).Decode(target)] on a response body, in the two
    steps of encoding/json: the decoder first reads one complete JSON value
    from the stream and returns the error of that without touching the
    target; only then does it unmarshal the value into the target. *)
Definition Decoder_Decode {T : Type}
    (unmarshal : string -> T -> T * option error)
    (resp : Response) (target : T) : M (T * option error * Response) :=
  r <- call EvJSONDecode (Body_readValue (Body resp)) ;;
  let resp' := mkResponse (StatusCode resp) (Body_after_read (Body resp)) in
  match r with
  | Err err => ret (target, Some err, resp')
  | Ok value => let (t, err) := unmarshal value target in ret (t, err, resp')
  end.

(** What [Decode] leaves in its target, and the error it returns. *)
Definition decoded {T : Type} (unmarshal : string -> T -> T * option error)
    (body : ReadCloser) (target : T) : T * option error :=
  match Body_readValue body with
  | Err err => (target, Some err)
  | Ok value => unmarshal value target
  end.

(** The response once a decoder has read from its body, and once the body
    is closed. *)
Definition after_read (resp : Response) : Response :=
  mkResponse (StatusCode resp) (Body_after_read (Body resp)).

Definition after_close (resp : Response) : Response :=
  mkResponse (StatusCode resp) (mkBody (unread (Body resp)) true).

(** [func CheckResponse(req *http.Request, resp *http.Response, dump string) error].
    Beside the error, the response as the call leaves it. *)
Definition CheckResponse (req : Request URLT) (resp : Response)
    (dump : string) : M (option error * Response) :=
  let s := StatusCode resp in
  if (200 <=? s) && (s <? 300) then
    ret (None, resp)
  else
    (* errorData := &ErrorData{response: resp, requestDump: dump} *)
    '(errs, _, resp') <- Decoder_Decode json_unmarshal_Errors resp [] ;;
    ret (Some (ErrorDataRef (Some (mkErrorData errs resp' dump))), resp').

(** [resp.Body.Close()] *)
Definition Body_Close (resp : Response) : M Response :=
  call EvBodyClose
       (mkResponse (StatusCode resp) (mkBody (unread (Body resp)) true)).

(** An [*ErrorData] built by [CheckResponse] points to the response that
    [Do] closes on its way out: the close shows through the pointer. *)
Definition through_pointer (resp : Response) (err : option error) : option error :=
  match err with
  | Some (ErrorDataRef (Some d)) =>
      Some (ErrorDataRef (Some (mkErrorData (Errors d) resp (requestDump d))))
  | _ => err
  end.

(** A return of [Do] after [defer resp.Body.Close()] was registered. *)
Definition return_closing (resp : Response) (err : option error)
    (v : option Dest) : M (DoResult Dest) :=
  resp' <- Body_Close resp ;;
  ret (mkDoResult (through_pointer resp' err) v (Some resp')).

(** [dump, _ := httputil.DumpRequest(req, true)] followed by
    [string(dump)]: empty when the dump failed. *)
Definition dump_of (req : Request URLT) : string :=
  match httputil_DumpRequest req true with
  | Ok s => s
  | Err _ => EmptyString
  end.

(** [func (c *Client) Do(ctx context.Context, req *http.Request, v interface{}) error] *)
Definition Do (c : Client URLT) (ctx : Context) (req : Request URLT)
    (v : option Dest) : M (DoResult Dest) :=
  (* dump, _ := httputil.DumpRequest(req, true) *)
  dump <- call EvDumpRequest (dump_of req) ;;
  r <- call EvClientDo (client c (WithContext req ctx)) ;;
  match r with
  | Err err => ret (mkDoResult (Some (withStack err)) v None)
  | Ok resp =>
      '(err, resp1) <- CheckResponse req resp dump ;;
      match err with
      | Some e => return_closing resp1 (Some e) v
      | None =>
          match v with
          | None => return_closing resp1 None None
          | Some dest =>
              '(dest', derr, resp2) <- Decoder_Decode json_unmarshal resp1 dest ;;
              return_closing resp2 (errors_WithStack derr) (Some dest')
          end
      end
  end.

End Ebay.

(** [a || b] for two calls that may panic: Go evaluates [b] only when [a]
    returned false. *)
Definition outcome_orb (a b : outcome bool) : outcome bool :=
  match a with
  | Returns true => Returns true
  | Returns false => b
  | Panics msg => Panics msg
  end.


(** The transport of a new client: [if httpclient == nil { httpclient =
    http.DefaultClient }]. *)
Definition chosen_transport {L : GoLib} (httpclient : option (HttpClient URLT))
  : HttpClient URLT :=
  match httpclient with
  | Some h => h
  | None => http_DefaultClient
  end.

(* ===================================================================== *)
(** ** Sim: an executable implementation of the imported packages

    [Sim] follows the Go standard library on a restricted input syntax and
    says so where it stops:
    - net/url: URLs and references over letters, digits and the bytes
      [-._~$&+,;=:/?#]; no percent-escapes, no userinfo, no bracketed hosts;
    - encoding/json, encoding: strings, integers, booleans, nil, slices and
      channels (the last stand for every type the encoder refuses);
    - encoding/json, decoding: the whole JSON grammar; string escapes are
      decoded, a surrogate escape gives U+FFFD;
    - net/http: a client without a network. *)
(* ===================================================================== *)

Module Sim.

Local Open Scope nat_scope.

(** *** Byte strings *)

Definition byte_in (lo hi : nat) (c : ascii) : bool :=
  (lo <=? nat_of_ascii c) && (nat_of_ascii c <=? hi).

Definition is_lower (c : ascii) : bool := byte_in 97 122 c.
Definition is_upper (c : ascii) : bool := byte_in 65 90 c.
Definition is_digit (c : ascii) : bool := byte_in 48 57 c.
Definition is_alpha (c : ascii) : bool := is_lower c || is_upper c.

Definition lower (c : ascii) : ascii :=
  if is_upper c then ascii_of_nat (nat_of_ascii c + 32) else c.

Fixpoint map_string (f : ascii -> ascii) (s : string) : string :=
  match s with
  | EmptyString => EmptyString
  | String c r => String (f c) (map_string f r)
  end.

Fixpoint all_bytes (p : ascii -> bool) (s : string) : bool :=
  match s with
  | EmptyString => true
  | String c r => p c && all_bytes p r
  end.

Definition member (c : ascii) (set : string) : bool :=
  negb (all_bytes (fun x => negb (Ascii.eqb x c)) set).

(** [strings.ToLower], on ASCII. *)
Definition ToLower (s : string) : string := map_string lower s.

(** [strings.Cut] with a one-byte separator: before, and after if found. *)
Fixpoint Cut (sep : ascii) (s : string) : string * option string :=
  match s with
  | EmptyString => (EmptyString, None)
  | String c r =>
      if Ascii.eqb c sep then (EmptyString, Some r)
      else let (b, a) := Cut sep r in (String c b, a)
  end.

(** [strings.Split] with a one-byte separator. *)
Fixpoint Split (sep : ascii) (s : string) : list string :=
  match s with
  | EmptyString => [EmptyString]
  | String c r =>
      if Ascii.eqb c sep then EmptyString :: Split sep r
      else match Split sep r with
           | [] => [String c EmptyString]
           | x :: xs => String c x :: xs
           end
  end.

(** [strings.Count] for one byte. *)
Fixpoint Count (c : ascii) (s : string) : nat :=
  match s with
  | EmptyString => 0
  | String x r => (if Ascii.eqb x c then 1 else 0) + Count c r
  end.

(** [s[:i]] with [i = strings.LastIndex(s, sep)], if the byte occurs. *)
Fixpoint before_last (sep : ascii) (s : string) : option string :=
  match s with
  | EmptyString => None
  | String c r =>
      match before_last sep r with
      | Some b => Some (String c b)
      | None => if Ascii.eqb c sep then Some EmptyString else None
      end
  end.

(** [s[i+1:]] with [i = strings.LastIndex(s, sep)], if the byte occurs. *)
Fixpoint after_last (sep : ascii) (s : string) : option string :=
  match s with
  | EmptyString => None
  | String c r =>
      match after_last sep r with
      | Some a => Some a
      | None => if Ascii.eqb c sep then Some r else None
      end
  end.

Definition drop_last (s : string) : string :=
  substring 0 (String.length s - 1) s.

Definition slash : ascii := "/"%char.

(** *** net/url *)

Record SimURL : Type := mkURL {
  Scheme     : string;
  Opaque     : string;
  Host       : string;
  Path       : string;
  OmitHost   : bool;
  ForceQuery : bool;
  RawQuery   : string;
  Fragment   : string
}.

Definition url_error (msg : string) : error := libError "net/url" msg.

(** The bytes [Sim] reads as net/url does. *)
Definition modelled_byte (c : ascii) : bool :=
  is_alpha c || is_digit c || member c "-._~$&+,;=:/?#".

(** [stringContainsCTLByte] *)
Definition is_CTL (c : ascii) : bool :=
  (nat_of_ascii c <? 32) || (nat_of_ascii c =? 127).

(** [getScheme]: the loop over the bytes of [rawURL]; [i0] says whether the
    index is 0, [seen] is [rawURL[:i]], [whole] is [rawURL]. *)
Fixpoint getScheme_loop (whole seen rest : string) (i0 : bool)
  : result (string * string) :=
  match rest with
  | EmptyString => Ok (EmptyString, whole)
  | String c r =>
      if is_alpha c then
        getScheme_loop whole (seen ++ String c EmptyString) r false
      else if is_digit c || member c "+-." then
        if i0 then Ok (EmptyString, whole)
        else getScheme_loop whole (seen ++ String c EmptyString) r false
      else if Ascii.eqb c ":" then
        if i0 then Err (url_error "missing protocol scheme")
        else Ok (seen, r)
      else Ok (EmptyString, whole)
  end.

Definition getScheme (rawURL : string) : result (string * string) :=
  getScheme_loop rawURL EmptyString rawURL true.

(** [validOptionalPort] *)
Definition validOptionalPort (port : string) : bool :=
  match port with
  | EmptyString => true
  | String c r => Ascii.eqb c ":" && all_bytes is_digit r
  end.

(** [parseHost], without brackets and escapes. *)
Definition parseHost (host : string) : result string :=
  match after_last ":" host with
  | Some p =>
      if validOptionalPort (String ":" p) then Ok host
      else Err (url_error "invalid port after host")
  | None => Ok host
  end.

(** [parse(rawURL, viaRequest)] with [viaRequest = false]. *)
Definition parse (rawURL : string) : result SimURL :=
  if String.eqb rawURL "*" then
    Ok (mkURL "" "" "" "*" false false "" "")
  else
    match getScheme rawURL with
    | Err e => Err e
    | Ok (scheme, rest) =>
        let scheme := ToLower scheme in
        let '(rest, force, query) :=
          if HasSuffix rest "?" && (Count "?" rest =? 1)
          then (drop_last rest, true, EmptyString)
          else let (b, a) := Cut "?" rest in
               (b, false, match a with Some q => q | None => EmptyString end) in
        if negb (HasPrefix rest "/") && negb (String.eqb scheme "") then
          (* a rootless path after a scheme is opaque *)
          Ok (mkURL scheme rest "" "" false force query "")
        else if negb (HasPrefix rest "/")
                && negb (all_bytes (fun c => negb (Ascii.eqb c ":"))
                                   (fst (Cut slash rest))) then
          Err (url_error "first path segment in URL cannot contain colon")
        else if (negb (String.eqb scheme "") || negb (HasPrefix rest "///"))
                && HasPrefix rest "//" then
          let authority := substring 2 (String.length rest - 2) rest in
          let (authority, rest) :=
            match Cut slash authority with
            | (a, Some p) => (a, String slash p)
            | (a, None) => (a, EmptyString)
            end in
          match parseHost authority with
          | Err e => Err e
          | Ok host => Ok (mkURL scheme "" host rest false force query "")
          end
        else if negb (String.eqb scheme "") && HasPrefix rest "/" then
          Ok (mkURL scheme "" "" rest true force query "")
        else
          Ok (mkURL scheme "" "" rest false force query "")
    end.

(** [url.Parse]: the fragment is cut off, the rest is checked for control
    bytes and parsed.  The [*url.Error] that wraps a failure is represented
    by its cause. *)
Definition Parse (rawURL : string) : result SimURL :=
  let (u, frag) := Cut "#" rawURL in
  if negb (all_bytes (fun c => negb (is_CTL c)) u) then
    Err (url_error "invalid control character in URL")
  else if negb (all_bytes modelled_byte rawURL) || (1 <? Count "#" rawURL) then
    Err (libError "sim" "outside the URL syntax that Sim implements")
  else
    match parse u with
    | Err e => Err e
    | Ok url =>
        match frag with
        | None => Ok url
        | Some f =>
            Ok (mkURL (Scheme url) (Opaque url) (Host url) (Path url)
                      (OmitHost url) (ForceQuery url) (RawQuery url) f)
        end
    end.

(** The loop of [resolvePath] over the elements of [full]: [dst] without
    its leading slash, and the flag [first]. *)
Fixpoint resolve_elems (elems : list string) (dst : string) (first : bool)
  : string :=
  match elems with
  | [] => dst
  | elem :: rest =>
      let tail := match rest with
                  | [] => if String.eqb elem "." || String.eqb elem ".."
                          then "/"%string else EmptyString
                  | _ => EmptyString
                  end in
      if String.eqb elem "." then
        (resolve_elems rest dst false ++ tail)%string
      else if String.eqb elem ".." then
        match before_last slash dst with
        | None => (resolve_elems rest EmptyString true ++ tail)%string
        | Some b => (resolve_elems rest b first ++ tail)%string
        end
      else
        resolve_elems rest
          ((if first then dst else dst ++ "/") ++ elem)%string false
  end.

(** [resolvePath(base, ref)] *)
Definition resolvePath (base ref : string) : string :=
  let full :=
    if String.eqb ref "" then base
    else if negb (HasPrefix ref "/") then
      match before_last slash base with
      | Some b => (b ++ "/" ++ ref)%string
      | None => ref
      end
    else ref in
  if String.eqb full "" then EmptyString
  else
    let r := String slash (resolve_elems (Split slash full) EmptyString true) in
    if HasPrefix r "//" then substring 1 (String.length r - 1) r else r.

Definition with_path (u : SimURL) (p : string) : SimURL :=
  mkURL (Scheme u) (Opaque u) (Host u) p
        (OmitHost u) (ForceQuery u) (RawQuery u) (Fragment u).

(** The method [ResolveReference] of [*URL].  A nil receiver is first read
    at [url.Scheme = u.Scheme], which runs when [ref.Scheme] is empty. *)
Definition ResolveReference (u : option SimURL) (ref : SimURL)
  : outcome SimURL :=
  if negb (String.eqb (Scheme ref) "") || negb (String.eqb (Host ref) "") then
    match u, String.eqb (Scheme ref) "" with
    | None, true => Panics nil_dereference
    | Some b, true =>
        Returns (mkURL (Scheme b) (Opaque ref) (Host ref)
                       (resolvePath (Path ref) "")
                       (OmitHost ref) (ForceQuery ref) (RawQuery ref)
                       (Fragment ref))
    | _, false => Returns (with_path ref (resolvePath (Path ref) ""))
    end
  else
    match u with
    | None => Panics nil_dereference
    | Some b =>
        if negb (String.eqb (Opaque ref) "") then
          Returns (mkURL (Scheme b) (Opaque ref) "" ""
                         (OmitHost ref) (ForceQuery ref) (RawQuery ref)
                         (Fragment ref))
        else
          let inherit :=
            String.eqb (Path ref) "" && negb (ForceQuery ref)
            && String.eqb (RawQuery ref) "" in
          let query := if inherit then RawQuery b else RawQuery ref in
          let frag :=
            if inherit && String.eqb (Fragment ref) "" then Fragment b
            else Fragment ref in
          if String.eqb (Path ref) "" && negb (String.eqb (Opaque b) "") then
            Returns (mkURL (Scheme b) (Opaque b) "" ""
                           (OmitHost ref) (ForceQuery ref) query frag)
          else
            Returns (mkURL (Scheme b) "" (Host b)
                           (resolvePath (Path b) (Path ref))
                           (OmitHost ref) (ForceQuery ref) query frag)
    end.

(** The method [String] of [*URL]. *)
Definition URL_String (u : SimURL) : string :=
  ((if String.eqb (Scheme u) "" then "" else Scheme u ++ ":")
   ++ (if negb (String.eqb (Opaque u) "") then Opaque u
       else
         let authority :=
           if negb (String.eqb (Scheme u) "") || negb (String.eqb (Host u) "")
           then
             if OmitHost u && String.eqb (Host u) "" then ""
             else (if negb (String.eqb (Host u) "")
                      || negb (String.eqb (Path u) "")
                   then "//" else "") ++ Host u
           else "" in
         let sep :=
           if negb (String.eqb (Path u) "") && negb (HasPrefix (Path u) "/")
              && negb (String.eqb (Host u) "")
           then "/" else "" in
         let dot :=
           if String.eqb (Scheme u) "" && String.eqb authority ""
              && String.eqb sep ""
              && negb (all_bytes (fun c => negb (Ascii.eqb c ":"))
                                 (fst (Cut slash (Path u))))
           then "./" else "" in
         authority ++ sep ++ dot ++ Path u)
   ++ (if ForceQuery u || negb (String.eqb (RawQuery u) "")
       then "?" ++ RawQuery u else "")
   ++ (if String.eqb (Fragment u) "" then "" else "#" ++ Fragment u))%string.

(** *** encoding/json: the encoder *)

(** The double quote, and a way to write JSON texts in this file: in
    [json_text s] every apostrophe of [s] stands for a double quote. *)
Definition dquote : ascii := ascii_of_nat 34.

Definition json_text (s : string) : string :=
  map_string (fun c => if Ascii.eqb c "'" then dquote else c) s.

Definition backslash : ascii := ascii_of_nat 92.

Definition hex_digit (n : nat) : ascii :=
  match get n "0123456789abcdef" with
  | Some c => c
  | None => "0"%char
  end.

(** The Go values [Sim] encodes. *)
Inductive GoValue : Type :=
| VNil
| VBool (b : bool)
| VInt (z : Z)
| VString (s : string)
| VSlice (l : list GoValue)
| VChan.

(** One byte of a string in [appendString]: bytes of [safeSet] (of
    [htmlSafeSet] when [escapeHTML] is set) are copied, the others escaped.
    Bytes above 0x7f are copied. *)
Definition escape_byte (escapeHTML : bool) (c : ascii) : string :=
  let n := nat_of_ascii c in
  let s1 (x : ascii) := String x EmptyString in
  if 128 <=? n then s1 c
  else if Ascii.eqb c backslash || Ascii.eqb c dquote then
    String backslash (s1 c)
  else if n =? 8 then String backslash "b"
  else if n =? 12 then String backslash "f"
  else if n =? 10 then String backslash "n"
  else if n =? 13 then String backslash "r"
  else if n =? 9 then String backslash "t"
  else if (n <? 32) || (escapeHTML && member c "<>&") then
    String backslash
      (String "u" (String "0" (String "0"
         (String (hex_digit (n / 16)) (s1 (hex_digit (n mod 16)))))))
  else s1 c.

Fixpoint escape_bytes (escapeHTML : bool) (s : string) : string :=
  match s with
  | EmptyString => EmptyString
  | String c r => (escape_byte escapeHTML c ++ escape_bytes escapeHTML r)%string
  end.

(** A JSON string literal for a Go string. *)
Definition encode_string (escapeHTML : bool) (s : string) : string :=
  String dquote (escape_bytes escapeHTML s ++ String dquote EmptyString).

(** Decimal digits of a number that is not negative, by repeated division. *)
Fixpoint digits (fuel : nat) (n : Z) (acc : string) : string :=
  match fuel with
  | O => acc
  | S f =>
      let acc' := String (ascii_of_nat (48 + Z.to_nat (n mod 10)%Z)) acc in
      if (n <? 10)%Z then acc' else digits f (n / 10)%Z acc'
  end.

(** [strconv.FormatInt(z, 10)] *)
Definition FormatInt (z : Z) : string :=
  let n := Z.abs z in
  ((if (z <? 0)%Z then "-" else "")
   ++ digits (S (Z.to_nat (Z.log2 n))) n EmptyString)%string.

(** [json.Marshal] with the encoder's escapeHTML setting. *)
Fixpoint marshal (escapeHTML : bool) (v : GoValue) : result string :=
  match v with
  | VNil => Ok "null"%string
  | VBool b => Ok (if b then "true" else "false")%string
  | VInt z => Ok (FormatInt z)
  | VString s => Ok (encode_string escapeHTML s)
  | VSlice l =>
      let fix elements (l : list GoValue) (first : bool) : result string :=
        match l with
        | [] => Ok EmptyString
        | x :: xs =>
            match marshal escapeHTML x, elements xs false with
            | Ok a, Ok b => Ok ((if first then "" else ",") ++ a ++ b)%string
            | Err e, _ => Err e
            | _, Err e => Err e
            end
        end in
      match elements l true with
      | Ok body => Ok ("[" ++ body ++ "]")%string
      | Err e => Err e
      end
  | VChan => Err (libError "encoding/json" "unsupported type: chan int")
  end.

(** [json.Encoder.Encode]: the value, then a newline; nothing on error. *)
Definition Encode (escapeHTML : bool) (v : GoValue) : result string :=
  match marshal escapeHTML v with
  | Ok b => Ok (b ++ String (ascii_of_nat 10) EmptyString)%string
  | Err e => Err e
  end.

(** *** encoding/json: the scanner and the decoder *)

Inductive json : Type :=
| JNull
| JBool (b : bool)
| JNumber (literal : string)
| JString (s : string)
| JArray (elements : list json)
| JObject (members : list (string * json)).

Definition is_space (c : ascii) : bool :=
  let n := nat_of_ascii c in
  (n =? 32) || (n =? 9) || (n =? 13) || (n =? 10).

Fixpoint skip_space (s : string) : string :=
  match s with
  | String c r => if is_space c then skip_space r else s
  | EmptyString => s
  end.

(** The longest prefix of bytes in [p], and the rest. *)
Fixpoint span (p : ascii -> bool) (s : string) : string * string :=
  match s with
  | String c r =>
      if p c then let (a, b) := span p r in (String c a, b)
      else (EmptyString, s)
  | EmptyString => (EmptyString, EmptyString)
  end.

Definition hex_value (c : ascii) : option N :=
  let n := N_of_ascii c in
  if is_digit c then Some (n - 48)%N
  else if byte_in 97 102 c then Some (n - 87)%N
  else if byte_in 65 70 c then Some (n - 55)%N
  else None.

(** UTF-8 for a code point below 0x10000; U+FFFD for a surrogate. *)
Definition utf8 (n : N) : string :=
  let b (x : N) := ascii_of_N x in
  (if n <? 128 then String (b n) EmptyString
   else if n <? 2048 then
     String (b (192 + n / 64)) (String (b (128 + n mod 64)) EmptyString)
   else if (55296 <=? n) && (n <=? 57343) then
     String (b 239) (String (b 191) (String (b 189) EmptyString))
   else
     String (b (224 + n / 4096))
       (String (b (128 + (n / 64) mod 64))
          (String (b (128 + n mod 64)) EmptyString)))%N.

(** A string literal after its opening quote: the decoded string and what
    follows the closing quote. *)
Fixpoint scan_string (s acc : string) : option (string * string) :=
  match s with
  | EmptyString => None
  | String c r =>
      if Ascii.eqb c dquote then Some (acc, r)
      else if Ascii.eqb c backslash then
        match r with
        | String e r1 =>
            let push (x : ascii) :=
              scan_string r1 (acc ++ String x EmptyString) in
            if Ascii.eqb e dquote || Ascii.eqb e backslash || Ascii.eqb e "/"
            then push e
            else if Ascii.eqb e "b" then push (ascii_of_nat 8)
            else if Ascii.eqb e "f" then push (ascii_of_nat 12)
            else if Ascii.eqb e "n" then push (ascii_of_nat 10)
            else if Ascii.eqb e "r" then push (ascii_of_nat 13)
            else if Ascii.eqb e "t" then push (ascii_of_nat 9)
            else if Ascii.eqb e "u" then
              match r1 with
              | String h1 (String h2 (String h3 (String h4 r2))) =>
                  match hex_value h1, hex_value h2, hex_value h3, hex_value h4 with
                  | Some a, Some b, Some c, Some d =>
                      scan_string r2
                        (acc ++ utf8 (((a * 16 + b) * 16 + c) * 16 + d)%N)
                  | _, _, _, _ => None
                  end
              | _ => None
              end
            else None
        | EmptyString => None
        end
      else if nat_of_ascii c <? 32 then None
      else scan_string r (acc ++ String c EmptyString)
  end.

(** A number literal: its text and what follows. *)
Definition scan_number (s : string) : option (string * string) :=
  let (sign, s1) :=
    match s with
    | String c r => if Ascii.eqb c "-" then ("-"%string, r) else (EmptyString, s)
    | EmptyString => (EmptyString, s)
    end in
  let int_part :=
    match s1 with
    | String c r =>
        if Ascii.eqb c "0" then Some ("0"%string, r)
        else if byte_in 49 57 c then
          let (ds, r') := span is_digit r in Some (String c ds, r')
        else None
    | EmptyString => None
    end in
  match int_part with
  | None => None
  | Some (ip, s2) =>
      let frac :=
        match s2 with
        | String c r =>
            if Ascii.eqb c "." then
              let (ds, r') := span is_digit r in
              if String.eqb ds "" then None else Some (String c ds, r')
            else Some (EmptyString, s2)
        | EmptyString => Some (EmptyString, s2)
        end in
      match frac with
      | None => None
      | Some (fp, s3) =>
          let exp :=
            match s3 with
            | String c r =>
                if Ascii.eqb c "e" || Ascii.eqb c "E" then
                  let (sg, r0) :=
                    match r with
                    | String x r' =>
                        if Ascii.eqb x "+" || Ascii.eqb x "-"
                        then (String x EmptyString, r') else (EmptyString, r)
                    | EmptyString => (EmptyString, r)
                    end in
                  let (ds, r') := span is_digit r0 in
                  if String.eqb ds "" then None
                  else Some ((String c sg ++ ds)%string, r')
                else Some (EmptyString, s3)
            | EmptyString => Some (EmptyString, s3)
            end in
          match exp with
          | None => None
          | Some (ep, s4) => Some ((sign ++ ip ++ fp ++ ep)%string, s4)
          end
      end
  end.

Definition strip_prefix (p s : string) : option string :=
  if HasPrefix s p
  then Some (substring (String.length p) (String.length s - String.length p) s)
  else None.

(** One JSON value at the head of [s], leading space skipped: the value and
    what follows it. *)
Fixpoint scan_value (fuel : nat) (s : string) : option (json * string) :=
  match fuel with
  | O => None
  | S f =>
      match skip_space s with
      | EmptyString => None
      | String c r as s' =>
          if Ascii.eqb c "{" then
            match skip_space r with
            | String c1 r1 as r' =>
                if Ascii.eqb c1 "}" then Some (JObject [], r1)
                else scan_members f r' []
            | EmptyString => None
            end
          else if Ascii.eqb c "[" then
            match skip_space r with
            | String c1 r1 as r' =>
                if Ascii.eqb c1 "]" then Some (JArray [], r1)
                else scan_elements f r' []
            | EmptyString => None
            end
          else if Ascii.eqb c dquote then
            match scan_string r EmptyString with
            | Some (str, r1) => Some (JString str, r1)
            | None => None
            end
          else if Ascii.eqb c "-" || is_digit c then
            match scan_number s' with
            | Some (lit, r1) => Some (JNumber lit, r1)
            | None => None
            end
          else
            match strip_prefix "true" s', strip_prefix "false" s',
                  strip_prefix "null" s' with
            | Some r1, _, _ => Some (JBool true, r1)
            | _, Some r1, _ => Some (JBool false, r1)
            | _, _, Some r1 => Some (JNull, r1)
            | _, _, _ => None
            end
      end
  end

with scan_members (fuel : nat) (s : string) (acc : list (string * json))
  : option (json * string) :=
  match fuel with
  | O => None
  | S f =>
      match s with
      | String q r =>
          if Ascii.eqb q dquote then
            match scan_string r EmptyString with
            | Some (key, r1) =>
                match skip_space r1 with
                | String colon r2 =>
                    if Ascii.eqb colon ":" then
                      match scan_value f r2 with
                      | Some (v, r3) =>
                          match skip_space r3 with
                          | String d r4 =>
                              if Ascii.eqb d "," then
                                scan_members f (skip_space r4)
                                             (acc ++ [(key, v)])%list
                              else if Ascii.eqb d "}" then
                                Some (JObject (acc ++ [(key, v)])%list, r4)
                              else None
                          | EmptyString => None
                          end
                      | None => None
                      end
                    else None
                | EmptyString => None
                end
            | None => None
            end
          else None
      | EmptyString => None
      end
  end

with scan_elements (fuel : nat) (s : string) (acc : list json)
  : option (json * string) :=
  match fuel with
  | O => None
  | S f =>
      match scan_value f s with
      | Some (v, r1) =>
          match skip_space r1 with
          | String d r2 =>
              if Ascii.eqb d "," then scan_elements f r2 (acc ++ [v])%list
              else if Ascii.eqb d "]" then Some (JArray (acc ++ [v])%list, r2)
              else None
          | EmptyString => None
          end
      | None => None
      end
  end.

Definition scan (s : string) : option (json * string) :=
  scan_value (S (String.length s)) s.

(** [json.Valid]: one value, and nothing but space after it. *)
Definition Valid (data : string) : bool :=
  match scan data with
  | Some (_, rest) => String.eqb (skip_space rest) ""
  | None => false
  end.

Definition json_error (msg : string) : error := libError "encoding/json" msg.

(** [Decoder.readValue] on a stream that holds [data]: the text of the
    next value.  An object or an array ends at its closing bracket and the
    bytes after it are not looked at; any other value ends at the byte
    after it, which has to be a space or the end of the stream. *)
Definition readValue (data : string) : result string :=
  let s := skip_space data in
  if String.eqb s "" then Err (libError "io" "EOF")
  else
    match scan s with
    | None => Err (json_error "syntax error or unexpected EOF")
    | Some (v, rest) =>
        let text := substring 0 (String.length s - String.length rest) s in
        match v, rest with
        | JObject _, _ => Ok text
        | JArray _, _ => Ok text
        | _, EmptyString => Ok text
        | _, String c _ =>
            if is_space c then Ok text
            else Err (json_error "invalid character after top-level value")
        end
    end.

(** What the body still holds after a decoder has read from it: [Sim]'s
    bodies hand all their bytes to the decoder's first read. *)
Definition Decoder_unread (data : string) : string := EmptyString.

(** *** encoding/json: storing a scanned value into a Go value

    A value of the wrong JSON type is skipped: the first such error is
    kept and returned at the end, and decoding goes on.  [null] leaves a
    string or an integer as it is and makes a slice nil.  Object keys match
    field names without regard to case.  Slices are decoded into fresh
    elements. *)

Definition first_error (a b : option error) : option error :=
  match a with
  | Some _ => a
  | None => b
  end.

Definition type_error (value field : string) : error :=
  json_error ("cannot unmarshal " ++ value ++ " into Go struct field " ++ field).

Definition kind_of (j : json) : string :=
  match j with
  | JNull => "null"
  | JBool _ => "bool"
  | JNumber _ => "number"
  | JString _ => "string"
  | JArray _ => "array"
  | JObject _ => "object"
  end.

Definition store_string (field : string) (j : json) (old : string)
  : string * option error :=
  match j with
  | JString s => (s, None)
  | JNull => (old, None)
  | _ => (old, Some (type_error (kind_of j) field))
  end.

Fixpoint digits_value (s : string) (acc : Z) : Z :=
  match s with
  | EmptyString => acc
  | String c r => digits_value r (10 * acc + Z.of_nat (nat_of_ascii c - 48))%Z
  end.

(** [strconv.ParseInt(literal, 10, 64)] on a JSON number literal. *)
Definition ParseInt (literal : string) : option Z :=
  let (neg, ds) :=
    match literal with
    | String c r => if Ascii.eqb c "-" then (true, r) else (false, literal)
    | EmptyString => (false, literal)
    end in
  if String.eqb ds "" || negb (all_bytes is_digit ds) then None
  else
    let z := (if neg then - digits_value ds 0 else digits_value ds 0)%Z in
    if ((- 2 ^ 63 <=? z) && (z <? 2 ^ 63))%Z then Some z else None.

Definition store_int (field : string) (j : json) (old : Z)
  : Z * option error :=
  match j with
  | JNumber lit =>
      match ParseInt lit with
      | Some z => (z, None)
      | None => (old, Some (type_error ("number " ++ lit) field))
      end
  | JNull => (old, None)
  | _ => (old, Some (type_error (kind_of j) field))
  end.

(** A JSON array into a slice, element by element. *)
Fixpoint store_elements {T : Type} (store : json -> T -> T * option error)
    (zero : T) (l : list json) : list T * option error :=
  match l with
  | [] => ([], None)
  | j :: rest =>
      let (x, e1) := store j zero in
      let (xs, e2) := store_elements store zero rest in
      (x :: xs, first_error e1 e2)
  end.

Definition store_slice {T : Type} (field : string)
    (store : json -> T -> T * option error) (zero : T)
    (j : json) (old : list T) : list T * option error :=
  match j with
  | JArray l => store_elements store zero l
  | JNull => ([], None)
  | _ => (old, Some (type_error (kind_of j) field))
  end.

(** A JSON object into a struct: the members in order, each into the field
    its key names; a key that names no field is skipped. *)
Fixpoint store_members {T : Type}
    (store_field : string -> json -> T -> T * option error)
    (members : list (string * json)) (old : T) : T * option error :=
  match members with
  | [] => (old, None)
  | (key, j) :: rest =>
      let (x, e1) := store_field (ToLower key) j old in
      let (y, e2) := store_members store_field rest x in
      (y, first_error e1 e2)
  end.

Definition store_struct {T : Type} (name : string)
    (store_field : string -> json -> T -> T * option error)
    (j : json) (old : T) : T * option error :=
  match j with
  | JObject members => store_members store_field members old
  | JNull => (old, None)
  | _ => (old, Some (type_error (kind_of j) name))
  end.

Definition store_Parameter_field (key : string) (j : json) (p : ErrorParameter)
  : ErrorParameter * option error :=
  if String.eqb key "name" then
    let (x, e) := store_string "name" j (Name p) in
    (mkErrorParameter x (Value p), e)
  else if String.eqb key "value" then
    let (x, e) := store_string "value" j (Value p) in
    (mkErrorParameter (Name p) x, e)
  else (p, None).

(** The fields of [Error] by their [json] tags. *)
Definition store_Error_field (key : string) (j : json) (x : Error)
  : Error * option error :=
  let '(mkError id dom sub cat msg long inp out par) := x in
  if String.eqb key "errorid" then
    let (v, e) := store_int "errorId" j id in
    (mkError v dom sub cat msg long inp out par, e)
  else if String.eqb key "domain" then
    let (v, e) := store_string "domain" j dom in
    (mkError id v sub cat msg long inp out par, e)
  else if String.eqb key "subdomain" then
    let (v, e) := store_string "subDomain" j sub in
    (mkError id dom v cat msg long inp out par, e)
  else if String.eqb key "category" then
    let (v, e) := store_string "category" j cat in
    (mkError id dom sub v msg long inp out par, e)
  else if String.eqb key "message" then
    let (v, e) := store_string "message" j msg in
    (mkError id dom sub cat v long inp out par, e)
  else if String.eqb key "longmessage" then
    let (v, e) := store_string "longMessage" j long in
    (mkError id dom sub cat msg v inp out par, e)
  else if String.eqb key "inputrefids" then
    let (v, e) :=
      store_slice "inputRefIds" (store_string "inputRefIds") EmptyString j inp in
    (mkError id dom sub cat msg long v out par, e)
  else if String.eqb key "outputrefids" then
    let (v, e) :=
      store_slice "outputRefIds" (store_string "outputRefIds") EmptyString j out in
    (mkError id dom sub cat msg long inp v par, e)
  else if String.eqb key "parameters" then
    let (v, e) :=
      store_slice "parameters"
        (store_struct "parameters" store_Parameter_field)
        (mkErrorParameter "" "") j par in
    (mkError id dom sub cat msg long inp out v, e)
  else (x, None).

(** The one exported field of [ErrorData]. *)
Definition store_ErrorData_field (key : string) (j : json) (errs : list Error)
  : list Error * option error :=
  if String.eqb key "errors" then
    store_slice "errors" (store_struct "errors" store_Error_field)
                Error_zero j errs
  else (errs, None).

(** Unmarshal the text of one value into the [Errors] of an [*ErrorData]. *)
Definition unmarshal_Errors (text : string) (errs : list Error)
  : list Error * option error :=
  match scan text with
  | Some (j, _) => store_struct "ErrorData" store_ErrorData_field j errs
  | None => (errs, Some (json_error "syntax error"))
  end.

(** A destination with the two scalar fields that the test of [Search]
    reads ([search.Href], [search.Total]), under the keys its mock server
    sends. *)
Record SearchDest : Type := mkSearchDest {
  Href  : string;
  Total : Z
}.

Definition store_SearchDest_field (key : string) (j : json) (d : SearchDest)
  : SearchDest * option error :=
  if String.eqb key "href" then
    let (v, e) := store_string "href" j (Href d) in (mkSearchDest v (Total d), e)
  else if String.eqb key "total" then
    let (v, e) := store_int "total" j (Total d) in (mkSearchDest (Href d) v, e)
  else (d, None).

Definition unmarshal_SearchDest (text : string) (d : SearchDest)
  : SearchDest * option error :=
  match scan text with
  | Some (j, _) => store_struct "Search" store_SearchDest_field j d
  | None => (d, Some (json_error "syntax error"))
  end.

(** *** net/http and net/http/httputil *)

(** [validMethod]: a non-empty HTTP token. *)
Definition validMethod (method : string) : bool :=
  negb (String.eqb method "")
  && all_bytes (fun c => is_alpha c || is_digit c
                         || member c "!#$%&'*+-.^_`|~") method.

(** [removeEmptyPort] on the host of a parsed URL. *)
Definition removeEmptyPort (u : SimURL) : SimURL :=
  if HasSuffix (Host u) ":" then
    mkURL (Scheme u) (Opaque u) (drop_last (Host u)) (Path u)
          (OmitHost u) (ForceQuery u) (RawQuery u) (Fragment u)
  else u.

(** [http.NewRequest]: an empty method means GET, the method has to be a
    token, the URL has to parse. *)
Definition NewHTTPRequest (method url : string) (body : option string)
  : result (Request SimURL) :=
  let method := if String.eqb method "" then "GET"%string else method in
  if negb (validMethod method) then
    Err (libError "net/http" ("invalid method " ++ method))
  else
    match Parse url with
    | Err e => Err e
    | Ok u => Ok (mkRequest method (removeEmptyPort u) [] body Background)
    end.

(** [http.DefaultClient] where there is no network. *)
Definition DefaultClient : HttpClient SimURL :=
  fun req =>
    match ctx req with
    | Done cause => Err cause
    | Background => Err (libError "net/http" "dial tcp: network is unreachable")
    end.

Definition crlf : string :=
  String (ascii_of_nat 13) (String (ascii_of_nat 10) EmptyString).

(** The method [RequestURI] of [*URL]. *)
Definition RequestURI (u : SimURL) : string :=
  ((if String.eqb (Opaque u) "" then
      if String.eqb (Path u) "" then "/" else Path u
    else if HasPrefix (Opaque u) "//" then Scheme u ++ ":" ++ Opaque u
    else Opaque u)
   ++ (if ForceQuery u || negb (String.eqb (RawQuery u) "")
       then "?" ++ RawQuery u else ""))%string.

Fixpoint header_lines (h : list (string * list string)) : string :=
  match h with
  | [] => EmptyString
  | (name, values) :: rest =>
      (fold_right (fun v acc => name ++ ": " ++ v ++ crlf ++ acc) "" values
       ++ header_lines rest)%string
  end.

(** [httputil.DumpRequest] of a request made by [http.NewRequest]: the
    request line, the host, the header lines (here in the order in which
    they are stored), an empty line and, if asked for, the body. *)
Definition DumpRequest (req : Request SimURL) (body : bool) : result string :=
  Ok ((if String.eqb (Method req) "" then "GET" else Method req)
      ++ " " ++ RequestURI (URL req) ++ " HTTP/1.1" ++ crlf
      ++ (if String.eqb (Host (URL req)) "" then ""
          else "Host: " ++ Host (URL req) ++ crlf)
      ++ header_lines (Header req)
      ++ crlf
      ++ (if body then match ReqBody req with
                       | Some b => b
                       | None => ""
                       end
          else ""))%string.

(** A transport that answers every request with one fixed response, as the
    mock server of the tests does, and fails on a context that is done. *)
Definition mock (resp : Response) : HttpClient SimURL :=
  fun req =>
    match ctx req with
    | Done cause => Err cause
    | Background => Ok resp
    end.

End Sim.

(** [Sim] as an implementation of the interface. *)
#[export] Instance SimLib : GoLib := {|
  URLT := Sim.SimURL;
  BodyValue := Sim.GoValue;
  Dest := Sim.SearchDest;
  url_Parse := Sim.Parse;
  url_Scheme := Sim.Scheme;
  url_ResolveReference := Sim.ResolveReference;
  url_String := Sim.URL_String;
  json_Encode := Sim.Encode;
  json_Valid := Sim.Valid;
  json_readValue := Sim.readValue;
  json_Decoder_unread := Sim.Decoder_unread;
  json_unmarshal_Errors := Sim.unmarshal_Errors;
  json_unmarshal := Sim.unmarshal_SearchDest;
  http_NewRequest := Sim.NewHTTPRequest;
  http_DefaultClient := Sim.DefaultClient;
  httputil_DumpRequest := Sim.DumpRequest
|}.

(* ===================================================================== *)
(** ** ebay.go: the message of an [*ErrorData] *)
(* ===================================================================== *)

Module GoFmt.

Definition newline : string := String (ascii_of_nat 10) EmptyString.

(** The verb [%d] of package fmt on an [int]. *)
Definition fmt_d (z : Z) : string := Sim.FormatInt z.

(** The elements of a slice under [%+v]: separated by one space. *)
Fixpoint spaced {T : Type} (show : T -> string) (l : list T) : string :=
  match l with
  | [] => EmptyString
  | [x] => show x
  | x :: rest => (show x ++ " " ++ spaced show rest)%string
  end.

(** A slice under [%+v]: its elements in brackets. *)
Definition plus_v_slice {T : Type} (show : T -> string) (l : list T) : string :=
  ("[" ++ spaced show l ++ "]")%string.

(** The anonymous struct of [Error.Parameters] under [%+v]. *)
Definition plus_v_Parameter (p : ErrorParameter) : string :=
  ("{Name:" ++ Name p ++ " Value:" ++ Value p ++ "}")%string.

(** An [Error] under [%+v]: the fields by name, in the order of the struct;
    a string is written as it is. *)
Definition plus_v_Error (e : Error) : string :=
  ("{ErrorID:" ++ fmt_d (ErrorID e)
   ++ " Domain:" ++ Domain e
   ++ " SubDomain:" ++ SubDomain e
   ++ " Category:" ++ Category e
   ++ " Message:" ++ Message e
   ++ " LongMessage:" ++ LongMessage e
   ++ " InputRefIds:" ++ plus_v_slice (fun x => x) (InputRefIds e)
   ++ " OuputRefIds:" ++ plus_v_slice (fun x => x) (OuputRefIds e)
   ++ " Parameters:" ++ plus_v_slice plus_v_Parameter (Parameters e)
   ++ "}")%string.

(** [func (e *ErrorData) Error() string], for an [*ErrorData] whose
    [response] is set, as [CheckResponse] builds it:
    [fmt.Sprintf("%d\n%s\n%+v", e.response.StatusCode, e.requestDump, e.Errors)]. *)
Definition ErrorData_Error (e : ErrorData) : string :=
  (fmt_d (StatusCode (response e)) ++ newline
   ++ requestDump e ++ newline
   ++ plus_v_slice plus_v_Error (Errors e))%string.

End GoFmt.

(* ===================================================================== *)
(** ** Concrete inputs, on [Sim] *)
(* ===================================================================== *)

Module Inputs.

(** The base URL of production, parsed. *)
Definition base : Sim.SimURL :=
  Sim.mkURL "https" "" "api.ebay.com" "/" false false "" "".

(** What [NewClient(nil)] returns. *)
Definition prod_client : Client Sim.SimURL := mkClient Sim.DefaultClient (Some base).

(** A client in front of a mock server that answers with [resp]. *)
Definition mock_client (resp : Response) : Client Sim.SimURL :=
  mkClient (Sim.mock resp) (Some base).

(** What [NewCustomClient(nil, ":/")] returns. *)
Definition broken_client : Client Sim.SimURL := mkClient Sim.DefaultClient None.

(** The URL and the request for the relative path [item]. *)
Definition item_url : Sim.SimURL :=
  Sim.mkURL "https" "" "api.ebay.com" "/item" false false "" "".

Definition item_request : Request Sim.SimURL :=
  mkRequest "GET" item_url [] None Background.

(** The dump of that request. *)
Definition item_dump : string :=
  ("GET /item HTTP/1.1" ++ Sim.crlf ++ "Host: api.ebay.com" ++ Sim.crlf
   ++ Sim.crlf)%string.

(** An option, as [OptBrowseContextualLocation] is one: it adds to a
    header.  [A] and [B] write different values under one name. *)
Definition add_header (name value : string) : Opt :=
  fun req =>
    mkRequest (Method req) (URL req) ((name, [value]) :: Header req)
              (ReqBody req) (ctx req).

Definition optA : Opt := add_header "X-EBAY-C-ENDUSERCTX" "a".
Definition optB : Opt := add_header "X-EBAY-C-ENDUSERCTX" "b".

(** Response bodies. *)
Definition item_body : string := Sim.json_text "{'itemId': 'itemId'}".
Definition half_typed_body : string := Sim.json_text "{'href':'h','total':'x'}".
Definition trailing_body : string := Sim.json_text "{'errors':[{'errorId':5}]}x".
Definition html_body : string := "<html>not json</html>".

Definition response (status : Z) (body : string) : Response :=
  mkResponse status (mkBody body false).

Definition error_5 : Error := mkError 5 "" "" "" "" "" [] [] [].

End Inputs.

(* ===================================================================== *)
(** ** Lemmas on strings and on computations *)
(* ===================================================================== *)

Lemma substring_app_skip (r t : string) :
  substring (String.length r) (String.length t) (r ++ t) = t.
Proof.
  induction r as [|c r IH]; simpl.
  - induction t as [|c t IH]; simpl; [reflexivity | now rewrite IH].
  - exact IH.
Qed.

Lemma substring_split (s : string) (n : nat) :
  (n <= String.length s)%nat ->
  s = (substring 0 n s ++ substring n (String.length s - n) s)%string.
Proof.
  revert n; induction s as [|c s IH]; intros n Hn; simpl in *.
  - destruct n; [reflexivity | lia].
  - destruct n as [|n]; simpl.
    + f_equal. clear. induction s as [|d s IH]; simpl; [reflexivity | now f_equal].
    + f_equal. apply IH. lia.
Qed.

Lemma length_append (a b : string) :
  String.length (a ++ b) = (String.length a + String.length b)%nat.
Proof. induction a as [|c a IH]; simpl; [reflexivity | now rewrite IH]. Qed.

(** [HasSuffix s t] says that [s] ends with [t]. *)
Lemma HasSuffix_iff (s t : string) :
  HasSuffix s t = true <-> exists r, s = (r ++ t)%string.
Proof.
  unfold HasSuffix. rewrite andb_true_iff, Nat.leb_le, String.eqb_eq. split.
  - intros [Hlen Hsub].
    exists (substring 0 (String.length s - String.length t)%nat s).
    rewrite (@substring_split s (String.length s - String.length t)%nat) at 1 by lia.
    f_equal. rewrite <- Hsub at 3. f_equal. lia.
  - intros [r ->]. rewrite length_append. split; [lia|].
    replace (String.length r + String.length t - String.length t)%nat
      with (String.length r) by lia.
    apply substring_app_skip.
Qed.



Lemma code_matches_In (id : Z) (codes : list Z) :
  code_matches id codes = true <-> In id codes.
Proof.
  induction codes as [|c codes IH]; simpl.
  - split; [discriminate | tauto].
  - destruct (Z.eqb_spec id c) as [->|Hne].
    + split; auto.
    + rewrite IH. split; [auto | intros [H|H]; [congruence | exact H]].
Qed.

Lemma errors_match_iff (es : list Error) (codes : list Z) :
  errors_match es codes = true <->
  exists e code, In e es /\ In code codes /\ ErrorID e = code.
Proof.
  induction es as [|e es IH]; simpl.
  - split; [discriminate | intros (e & c & [] & _)].
  - destruct (code_matches (ErrorID e) codes) eqn:Hm.
    + split; [intros _ | reflexivity].
      exists e, (ErrorID e). rewrite <- code_matches_In. auto.
    + rewrite IH. split.
      * intros (e' & c & He & Hc & Heq). exists e', c. auto.
      * intros (e' & c & [<-|He] & Hc & Heq).
        -- subst c. apply code_matches_In in Hc. congruence.
        -- exists e', c. auto.
Qed.



(* ===================================================================== *)
(** ** Client construction *)
(* ===================================================================== *)

Section Construction.

Context {L : GoLib}.

Lemma newClient_returns (httpclient : option (HttpClient URLT)) (base : string) :
  exists c, newClient httpclient base = ([EvURLParse base], Returns c)
            /\ baseURL c = match url_Parse base with
                           | Ok u => Some u
                           | Err _ => None
                           end.
Proof. unfold newClient, bind, call, ret; simpl. eauto. Qed.

(** C9.  For every base URL string, [NewCustomClient] returns an error
    exactly when the string does not end with "/", and returns a client
    exactly when it does. *)
Theorem NewCustomClient_trailing_slash
    (httpclient : option (HttpClient URLT)) (base : string) :
  ((exists e, final (NewCustomClient httpclient base) = Returns (Err e))
   <-> ~ (exists r, base = (r ++ "/")%string))
  /\ ((exists c, final (NewCustomClient httpclient base) = Returns (Ok c))
      <-> exists r, base = (r ++ "/")%string).
Proof.
  rewrite <- HasSuffix_iff. unfold NewCustomClient.
  destruct (newClient_returns httpclient base) as (c & Hc & _).
  rewrite Hc.
  destruct (HasSuffix base "/") eqn:Hs; simpl.
  - unfold bind, ret, final; simpl. split; split.
    + intros [e He]. discriminate.
    + intros H. now contradiction H.
    + reflexivity.
    + intros _. now exists c.
  - unfold ret, final; simpl. split; split.
    + intros _. discriminate.
    + intros _. eexists. reflexivity.
    + intros [c' Hc']. discriminate.
    + discriminate.
Qed.

End Construction.

(* ===================================================================== *)
(** ** The error predicate *)
(* ===================================================================== *)


(* ===================================================================== *)
(** ** The error decoder *)
(* ===================================================================== *)

Section Decoder.

Context {L : GoLib}.

Lemma Decoder_Decode_decoded (T : Type)
    (unmarshal : string -> T -> T * option error) (resp : Response) (target : T) :
  Decoder_Decode unmarshal resp target
  = ([EvJSONDecode],
     Returns (fst (decoded unmarshal (Body resp) target),
              snd (decoded unmarshal (Body resp) target),
              after_read resp)).
Proof.
  unfold Decoder_Decode, decoded, after_read, bind, call, ret; simpl.
  destruct (Body_readValue (Body resp)) as [value|e]; simpl.
  - now destruct (unmarshal value target).
  - reflexivity.
Qed.

Lemma in_range_iff (s : Z) :
  (200 <=? s) && (s <? 300) = true <-> 200 <= s < 300.
Proof. rewrite andb_true_iff, Z.leb_le, Z.ltb_lt. tauto. Qed.

Lemma out_of_range (s : Z) :
  ~ 200 <= s < 300 -> (200 <=? s) && (s <? 300) = false.
Proof.
  intros H. destruct ((200 <=? s) && (s <? 300)) eqn:E; [|reflexivity].
  apply in_range_iff in E. now contradiction H.
Qed.

(** [CheckResponse], path by path. *)
Lemma CheckResponse_cases (req : Request URLT) (resp : Response) (dump : string) :
  CheckResponse req resp dump =
  if (200 <=? StatusCode resp) && (StatusCode resp <? 300)
  then ([], Returns (None, resp))
  else
    ([EvJSONDecode],
     Returns
       (Some (ErrorDataRef (Some
          (mkErrorData (fst (decoded json_unmarshal_Errors (Body resp) []))
                       (after_read resp) dump))),
        after_read resp)).
Proof.
  unfold CheckResponse.
  destruct ((200 <=? StatusCode resp) && (StatusCode resp <? 300));
    [reflexivity|].
  rewrite Decoder_Decode_decoded. reflexivity.
Qed.

(** C2.  [CheckResponse] returns nil exactly when the status code is in
    [200, 300); for every other status code it returns a non-nil
    [*ErrorData] that carries the status code of the response and the
    request dump it was given. *)
Theorem CheckResponse_nil_iff_2xx
    (req : Request URLT) (resp : Response) (dump : string) :
  exists err resp',
    final (CheckResponse req resp dump) = Returns (err, resp')
    /\ (err = None <-> 200 <= StatusCode resp < 300)
    /\ (~ 200 <= StatusCode resp < 300 ->
        exists d, err = Some (ErrorDataRef (Some d))
                  /\ StatusCode (response d) = StatusCode resp
                  /\ requestDump d = dump).
Proof.
  rewrite CheckResponse_cases.
  destruct ((200 <=? StatusCode resp) && (StatusCode resp <? 300)) eqn:Hr.
  - apply in_range_iff in Hr. exists None, resp.
    split; [reflexivity|]. split; [tauto|].
    intros Hn. now contradiction Hn.
  - assert (Hout : ~ 200 <= StatusCode resp < 300)
      by (rewrite <- in_range_iff, Hr; discriminate).
    eexists _, _. split; [reflexivity|].
    split; [split; [discriminate | intros H; now contradiction Hout]|].
    intros _. eexists. split; [reflexivity|]. simpl. auto.
Qed.

(** C4, as amended.  For every response outside [200, 300) from whose
    body the decoder cannot read one complete JSON value (an empty body, a
    body that does not start with a well-formed value), [CheckResponse]
    returns a non-nil [*ErrorData] with an empty entry list, the status
    code and the dump: it returns, it does not panic, and the decoder's
    error is not what it returns. *)
Theorem CheckResponse_unreadable_body
    (req : Request URLT) (resp : Response) (dump : string) (e : error) :
  ~ 200 <= StatusCode resp < 300 ->
  Body_readValue (Body resp) = Err e ->
  exists d resp',
    final (CheckResponse req resp dump)
    = Returns (Some (ErrorDataRef (Some d)), resp')
    /\ Errors d = []
    /\ StatusCode (response d) = StatusCode resp
    /\ requestDump d = dump.
Proof.
  intros Hout Hread.
  rewrite CheckResponse_cases, (out_of_range Hout).
  unfold final, decoded; simpl. rewrite Hread.
  eexists _, _. split; [reflexivity|]. simpl. auto.
Qed.

End Decoder.
(* ===================================================================== *)
(** ** Request construction *)
(* ===================================================================== *)

Section Requests.

Context {L : GoLib}.

(** [NewRequest], path by path: the calls made and the ending. *)
Lemma NewRequest_cases (c : Client URLT) (method url : string)
    (body : option BodyValue) (opts : list Opt) :
  NewRequest c method url body opts =
  if HasPrefix url "/" then ([], Returns (Err invalid_path))
  else
    match url_Parse url with
    | Err err => ([EvURLParse url], Returns (Err (withStack err)))
    | Ok ref =>
        match url_ResolveReference (baseURL c) ref with
        | Panics msg => ([EvURLParse url; EvResolveReference], Panics msg)
        | Returns u =>
            let enc := match body with
                       | Some _ => [EvJSONEncode]
                       | None => []
                       end in
            match payload body with
            | Err err =>
                (([EvURLParse url; EvResolveReference] ++ enc)%list,
                 Returns (Err err))
            | Ok buf =>
                let s := url_String u in
                (([EvURLParse url; EvResolveReference] ++ enc
                    ++ [EvURLString; EvHTTPNewRequest method s])%list,
                 match http_NewRequest method s buf with
                 | Err err => Returns (Err (withStack err))
                 | Ok req => Returns (Ok (apply_opts opts req))
                 end)
            end
        end
    end.
Proof.
  unfold NewRequest, URL_Parse, encode_body, payload, bind, call, call_outcome, ret.
  destruct (HasPrefix url "/"); [reflexivity|].
  destruct (url_Parse url) as [ref|err]; simpl; [|reflexivity].
  destruct (url_ResolveReference (baseURL c) ref) as [u|msg]; simpl; [|reflexivity].
  destruct body as [b|]; simpl.
  - destruct (json_Encode false b) as [buf|err]; simpl; [|reflexivity].
    destruct (http_NewRequest method (url_String u) (Some buf)); reflexivity.
  - destruct (http_NewRequest method (url_String u) None); reflexivity.
Qed.



(** C10.  Client construction drops the error of parsing the base URL: for
    a string that ends with "/" and does not parse, [NewCustomClient]
    succeeds and the client's base URL is nil; [NewRequest] on that client,
    for a path that passes the slash check and parses as a reference
    without a scheme, then panics on the nil base URL instead of returning
    an error. *)
Theorem NewCustomClient_keeps_nil_base_url
    (httpclient : option (HttpClient URLT)) (base : string) (e : error) :
  nil_receiver_panics ->
  (exists r, base = (r ++ "/")%string) ->
  url_Parse base = Err e ->
  exists c,
    final (NewCustomClient httpclient base) = Returns (Ok c)
    /\ baseURL c = None
    /\ forall method url body opts ref,
         HasPrefix url "/" = false ->
         url_Parse url = Ok ref ->
         url_Scheme ref = "" ->
         final (NewRequest c method url body opts) = Panics nil_dereference.
Proof.
  intros Hlaw Hs Hp. apply HasSuffix_iff in Hs.
  destruct (newClient_returns httpclient base) as (c & Hc & Hb).
  exists c. rewrite Hp in Hb. repeat split.
  - unfold NewCustomClient. rewrite Hs, Hc. reflexivity.
  - exact Hb.
  - intros method url body opts ref Hpre Hu Hsch.
    rewrite NewRequest_cases, Hpre, Hu, Hb, (Hlaw ref Hsch). reflexivity.
Qed.

End Requests.

(* ===================================================================== *)
(** ** The request body *)
(* ===================================================================== *)

Lemma URL_Parse_final {L : GoLib} (base : option URLT) (url : string) (u : URLT) :
  final (URL_Parse base url) = Returns (Ok u)
  <-> exists ref, url_Parse url = Ok ref
                  /\ url_ResolveReference base ref = Returns u.
Proof.
  unfold URL_Parse, bind, call, call_outcome, ret, final.
  destruct (url_Parse url) as [ref|err]; simpl.
  - destruct (url_ResolveReference base ref) as [u'|msg] eqn:Hr; simpl; split.
    + intros [= <-]. eauto.
    + intros (ref' & [= <-] & H). rewrite Hr in H. now injection H as ->.
    + discriminate.
    + intros (ref' & [= <-] & H). rewrite Hr in H. discriminate.
  - split; [discriminate | intros (ref & H & _); discriminate].
Qed.







(* ===================================================================== *)
(** ** The round trip *)
(* ===================================================================== *)

Section RoundTrip.

Context {L : GoLib}.

(** [Do], path by path. *)
Lemma Do_cases (c : Client URLT) (ctx : Context) (req : Request URLT)
    (v : option Dest) :
  Do c ctx req v =
  match client c (WithContext req ctx) with
  | Err err =>
      ([EvDumpRequest; EvClientDo],
       Returns (mkDoResult (Some (withStack err)) v None))
  | Ok resp =>
      if (200 <=? StatusCode resp) && (StatusCode resp <? 300) then
        match v with
        | None =>
            ([EvDumpRequest; EvClientDo; EvBodyClose],
             Returns (mkDoResult None None (Some (after_close resp))))
        | Some dest =>
            ([EvDumpRequest; EvClientDo; EvJSONDecode; EvBodyClose],
             Returns
               (mkDoResult
                  (errors_WithStack
                     (snd (decoded json_unmarshal (Body resp) dest)))
                  (Some (fst (decoded json_unmarshal (Body resp) dest)))
                  (Some (after_close (after_read resp)))))
        end
      else
        ([EvDumpRequest; EvClientDo; EvJSONDecode; EvBodyClose],
         Returns
           (mkDoResult
              (Some (ErrorDataRef (Some
                 (mkErrorData
                    (fst (decoded json_unmarshal_Errors (Body resp) []))
                    (after_close (after_read resp)) (dump_of req)))))
              v (Some (after_close (after_read resp)))))
  end.
Proof.
  unfold Do, return_closing, Body_Close, bind, call, ret; simpl.
  destruct (client c (WithContext req ctx)) as [resp|err]; simpl; [|reflexivity].
  rewrite CheckResponse_cases.
  destruct ((200 <=? StatusCode resp) && (StatusCode resp <? 300)); simpl.
  - destruct v as [dest|]; simpl; [|reflexivity].
    rewrite Decoder_Decode_decoded; simpl.
    now destruct (snd (decoded json_unmarshal (Body resp) dest)).
  - reflexivity.
Qed.

(** C3, as amended.  [Do] always returns, with one error or none.  When it
    returns the error of a transport failure or the [*ErrorData] of a
    status outside [200, 300), the destination is as the caller left it; so
    it is when no complete JSON value can be read from the body of a 2xx
    response, and [Do] returns that decode error wrapped.  When the body of
    a 2xx response yields one complete JSON value, the destination holds
    what unmarshalling stored, and [Do] returns the error of unmarshalling,
    wrapped, or nil if there is none.  With a nil destination a 2xx
    response gives nil. *)
Theorem Do_error_and_destination
    (c : Client URLT) (ctx : Context) (req : Request URLT) (v : option Dest) :
  exists r,
    final (Do c ctx req v) = Returns r
    /\ (forall e, client c (WithContext req ctx) = Err e ->
          do_err r = Some (withStack e) /\ do_dest r = v)
    /\ (forall resp, client c (WithContext req ctx) = Ok resp ->
          ~ 200 <= StatusCode resp < 300 ->
          (exists d, do_err r = Some (ErrorDataRef (Some d))
                     /\ StatusCode (response d) = StatusCode resp)
          /\ do_dest r = v)
    /\ (forall resp dest e, client c (WithContext req ctx) = Ok resp ->
          200 <= StatusCode resp < 300 ->
          v = Some dest ->
          Body_readValue (Body resp) = Err e ->
          do_err r = Some (withStack e) /\ do_dest r = v)
    /\ (forall resp dest value, client c (WithContext req ctx) = Ok resp ->
          200 <= StatusCode resp < 300 ->
          v = Some dest ->
          Body_readValue (Body resp) = Ok value ->
          do_err r = errors_WithStack (snd (json_unmarshal value dest))
          /\ do_dest r = Some (fst (json_unmarshal value dest)))
    /\ (forall resp, client c (WithContext req ctx) = Ok resp ->
          200 <= StatusCode resp < 300 ->
          v = None ->
          do_err r = None /\ do_dest r = None).
Proof.
  rewrite Do_cases.
  destruct (client c (WithContext req ctx)) as [resp|err].
  - destruct ((200 <=? StatusCode resp) && (StatusCode resp <? 300)) eqn:Hr.
    + apply in_range_iff in Hr.
      destruct v as [dest|]; eexists; (split; [reflexivity|]); simpl;
        (split; [discriminate|]);
        (split; [intros ? [= <-] Hn; now contradiction Hn|]).
      * unfold decoded. split; [|split].
        -- intros ? ? e [= <-] _ [= <-] ->. simpl. auto.
        -- intros ? ? value [= <-] _ [= <-] ->. auto.
        -- discriminate.
      * split; [discriminate|]. split; [discriminate|]. auto.
    + eexists. split; [reflexivity|]. simpl.
      split; [discriminate|].
      assert (Hout : ~ 200 <= StatusCode resp < 300)
        by (rewrite <- in_range_iff, Hr; discriminate).
      split; [intros ? [= <-] _; split;
              [eexists; split; reflexivity | reflexivity]|].
      split; [|split]; intros; match goal with
        | H : Ok _ = Ok _ |- _ => injection H as <-; now contradiction Hout
        end.
  - eexists. split; [reflexivity|]. simpl.
    split; [intros e [= <-]; auto|].
    split; [discriminate|]. split; [discriminate|].
    split; discriminate.
Qed.

(** C6, as amended.  When the transport delivers a 2xx response and the
    destination is nil, [Do] returns nil after three calls: the dump, the
    round trip and the close of the body.  No decoder is created, nothing
    is read from the body, and the body is closed. *)
Theorem Do_nil_destination_closes_unread
    (c : Client URLT) (ctx : Context) (req : Request URLT) (resp : Response) :
  client c (WithContext req ctx) = Ok resp ->
  200 <= StatusCode resp < 300 ->
  Do c ctx req None
  = ([EvDumpRequest; EvClientDo; EvBodyClose],
     Returns (mkDoResult None None
                (Some (mkResponse (StatusCode resp)
                                  (mkBody (unread (Body resp)) true))))).
Proof.
  intros Hc Hr. rewrite Do_cases, Hc.
  apply in_range_iff in Hr. now rewrite Hr.
Qed.

End RoundTrip.

(* ===================================================================== *)
(** ** Runs on [Sim] *)
(* ===================================================================== *)

Lemma Sim_nil_receiver_panics : nil_receiver_panics (L := SimLib).
Proof.
  intros ref H. simpl in *. unfold Sim.ResolveReference. rewrite H. simpl.
  now destruct (negb (String.eqb (Sim.Host ref) "")).
Qed.




(** C4, as amended, at a 500 response with an HTML body. *)
Lemma CheckResponse_unreadable_body_witness :
  ~ 200 <= 500 < 300
  /\ Body_readValue (L := SimLib) (Body (Inputs.response 500 Inputs.html_body))
     = Err (libError "encoding/json" "syntax error or unexpected EOF")
  /\ exists d resp',
       final (CheckResponse (L := SimLib) Inputs.item_request
                (Inputs.response 500 Inputs.html_body) "dump")
       = Returns (Some (ErrorDataRef (Some d)), resp')
       /\ Errors d = []
       /\ StatusCode (response d) = 500
       /\ requestDump d = "dump"%string.
Proof.
  split; [lia|]. split; [reflexivity|].
  apply (CheckResponse_unreadable_body (L := SimLib) Inputs.item_request
           (Inputs.response 500 Inputs.html_body) "dump"
           (e := libError "encoding/json" "syntax error or unexpected EOF")).
  - simpl. lia.
  - reflexivity.
Defined.

(** The same for an empty body: the decoder reports the end of the stream. *)
Example CheckResponse_empty_body :
  Body_readValue (L := SimLib) (Body (Inputs.response 503 ""))
  = Err (libError "io" "EOF")
  /\ final (CheckResponse (L := SimLib) Inputs.item_request
              (Inputs.response 503 "") "dump")
     = Returns
         (Some (ErrorDataRef (Some
            (mkErrorData [] (mkResponse 503 (mkBody "" false)) "dump"))),
          mkResponse 503 (mkBody "" false)).
Proof. split; vm_compute; reflexivity. Qed.

(** C4 as stated fails: a body that is a complete JSON object followed by
    one more byte is not valid JSON, and the decoder, which stops at the
    closing brace, still stores its entries. *)
Lemma CheckResponse_trailing_bytes_keep_entries :
  @json_Valid SimLib Inputs.trailing_body = false
  /\ final (CheckResponse (L := SimLib) Inputs.item_request
              (Inputs.response 404 Inputs.trailing_body) "dump")
     = Returns
         (Some (ErrorDataRef (Some
            (mkErrorData [Inputs.error_5]
                         (mkResponse 404 (mkBody "" false)) "dump"))),
          mkResponse 404 (mkBody "" false))
  /\ [Inputs.error_5] <> [].
Proof. repeat split; try (vm_compute; reflexivity). discriminate. Qed.

(** C3 as stated fails: on a 200 response whose body has a string where
    the destination has an integer, [Do] returns the decode error and the
    destination has changed: [Href] was empty and is now ["h"]. *)
Lemma Do_decode_failure_changes_destination :
  final (Do (L := SimLib)
            (Inputs.mock_client (Inputs.response 200 Inputs.half_typed_body))
            Background Inputs.item_request (Some (Sim.mkSearchDest "" 7)))
  = Returns
      (mkDoResult
         (Some (withStack
                  (libError "encoding/json"
                     "cannot unmarshal string into Go struct field total")))
         (Some (Sim.mkSearchDest "h" 7))
         (Some (mkResponse 200 (mkBody "" true))))
  /\ Sim.mkSearchDest "h" 7 <> Sim.mkSearchDest "" 7.
Proof. split; [vm_compute; reflexivity | discriminate]. Qed.

(** The other paths of [Do] on the same destination: a round trip that
    fails, a 404, and a 200 with a body that is no JSON leave it alone; a
    200 with a well-typed body fills it. *)
Example Do_paths :
  final (Do (L := SimLib) Inputs.prod_client Background Inputs.item_request
            (Some (Sim.mkSearchDest "" 7)))
  = Returns
      (mkDoResult
         (Some (withStack
                  (libError "net/http" "dial tcp: network is unreachable")))
         (Some (Sim.mkSearchDest "" 7)) None)
  /\ final (Do (L := SimLib)
               (Inputs.mock_client (Inputs.response 404 Inputs.trailing_body))
               Background Inputs.item_request (Some (Sim.mkSearchDest "" 7)))
     = Returns
         (mkDoResult
            (Some (ErrorDataRef (Some
               (mkErrorData [Inputs.error_5]
                  (mkResponse 404 (mkBody "" true)) Inputs.item_dump))))
            (Some (Sim.mkSearchDest "" 7))
            (Some (mkResponse 404 (mkBody "" true))))
  /\ final (Do (L := SimLib)
               (Inputs.mock_client (Inputs.response 200 Inputs.html_body))
               Background Inputs.item_request (Some (Sim.mkSearchDest "" 7)))
     = Returns
         (mkDoResult
            (Some (withStack
                     (libError "encoding/json" "syntax error or unexpected EOF")))
            (Some (Sim.mkSearchDest "" 7))
            (Some (mkResponse 200 (mkBody "" true))))
  /\ final (Do (L := SimLib)
               (Inputs.mock_client
                  (Inputs.response 200
                     (Sim.json_text "{'href': 'href','total':1}")))
               Background Inputs.item_request (Some (Sim.mkSearchDest "" 7)))
     = Returns
         (mkDoResult None (Some (Sim.mkSearchDest "href" 1))
                     (Some (mkResponse 200 (mkBody "" true)))).
Proof. repeat split; vm_compute; reflexivity. Qed.

(** C6, as amended, at a 200 response of the mock server. *)
Lemma Do_nil_destination_closes_unread_witness :
  200 <= 200 < 300
  /\ Do (L := SimLib)
        (Inputs.mock_client (Inputs.response 200 Inputs.item_body))
        Background Inputs.item_request None
     = ([EvDumpRequest; EvClientDo; EvBodyClose],
        Returns (mkDoResult None None
                   (Some (mkResponse 200 (mkBody Inputs.item_body true))))).
Proof.
  split; [lia|].
  apply (Do_nil_destination_closes_unread (L := SimLib)
           (Inputs.mock_client (Inputs.response 200 Inputs.item_body))
           Background Inputs.item_request
           (resp := Inputs.response 200 Inputs.item_body)).
  - reflexivity.
  - simpl. lia.
Defined.

(** C6 as stated fails: on a 200 response and a nil destination [Do]
    returns nil and closes the body, and all twenty bytes of the body are
    still unread. *)
Lemma Do_nil_destination_leaves_body_unread :
  final (Do (L := SimLib)
            (Inputs.mock_client (Inputs.response 200 Inputs.item_body))
            Background Inputs.item_request None)
  = Returns (mkDoResult None None
               (Some (mkResponse 200 (mkBody Inputs.item_body true))))
  /\ String.length Inputs.item_body = 20%nat.
Proof. split; vm_compute; reflexivity. Qed.

(** C10 at the base URL [:/], which net/url refuses for its missing
    scheme. *)
Lemma NewCustomClient_keeps_nil_base_url_witness :
  (exists r, ":/"%string = (r ++ "/")%string)
  /\ @url_Parse SimLib ":/"
     = Err (libError "net/url" "missing protocol scheme")
  /\ exists c,
       final (NewCustomClient (L := SimLib) None ":/") = Returns (Ok c)
       /\ baseURL c = None
       /\ forall method url body opts ref,
            HasPrefix url "/" = false ->
            url_Parse url = Ok ref ->
            url_Scheme ref = ""%string ->
            final (NewRequest c method url body opts) = Panics nil_dereference.
Proof.
  split; [exists ":"%string; reflexivity|]. split; [reflexivity|].
  apply (NewCustomClient_keeps_nil_base_url (L := SimLib) None
           (base := ":/") (e := libError "net/url" "missing protocol scheme")).
  - exact Sim_nil_receiver_panics.
  - exists ":"%string. reflexivity.
  - reflexivity.
Defined.

(** On the client that [NewCustomClient(nil, ":/")] returns, a request for
    the path [item] panics after two calls into net/url; a path that does
    not parse still gives an error, and an absolute URL gives a request,
    since neither reaches the nil base URL. *)
Example NewRequest_on_nil_base_url :
  final (NewCustomClient (L := SimLib) None ":/")
  = Returns (Ok Inputs.broken_client)
  /\ NewRequest (L := SimLib) Inputs.broken_client "GET" "item" None []
     = ([EvURLParse "item"; EvResolveReference], Panics nil_dereference)
  /\ final (NewRequest (L := SimLib) Inputs.broken_client "GET" ":item" None [])
     = Returns (Err (withStack (libError "net/url" "missing protocol scheme")))
  /\ final (NewRequest (L := SimLib) Inputs.broken_client "GET"
                       "https://api.ebay.com/item" None [])
     = Returns (Ok Inputs.item_request).
Proof. repeat split; vm_compute; reflexivity. Qed.

(** The two options in the two orders leave different requests. *)
Example options_do_not_commute :
  apply_opts [Inputs.optA; Inputs.optB] Inputs.item_request
  <> apply_opts [Inputs.optB; Inputs.optA] Inputs.item_request.
Proof. discriminate. Qed.

(** A string body with and without HTML escaping. *)
Example Encode_html :
  Sim.Encode false (Sim.VString "a<b>&c")
  = Ok (Sim.json_text "'a<b>&c'" ++ String (ascii_of_nat 10) EmptyString)%string
  /\ Sim.Encode true (Sim.VString "a<b>&c")
     = Ok (Sim.json_text "'a\u003cb\u003e\u0026c'"
           ++ String (ascii_of_nat 10) EmptyString)%string.
Proof. split; vm_compute; reflexivity. Qed.

(** [IsError] on what [CheckResponse] returned for the entry with code 5. *)
Example IsError_on_decoded_entry :
  IsError (Some (ErrorDataRef (Some
             (mkErrorData [Inputs.error_5]
                          (mkResponse 404 (mkBody "" false)) "dump"))))
          [7; 5]
  = Returns true
  /\ IsError (Some (withStack (libError "net/http" "timeout"))) [5]
     = Returns false
  /\ IsError (Some (ErrorDataRef None)) [5] = Panics nil_dereference.
Proof. repeat split. Qed.

(* ===================================================================== *)
(** ** More on the constructors *)
(* ===================================================================== *)

Section MoreConstruction.

Context {L : GoLib}.

Lemma newClient_fields (httpclient : option (HttpClient URLT)) (base : string) :
  newClient httpclient base
  = ([EvURLParse base],
     Returns (mkClient (chosen_transport httpclient)
                       (match url_Parse base with
                        | Ok u => Some u
                        | Err _ => None
                        end))).
Proof. unfold newClient, bind, call, ret. now destruct httpclient. Qed.

(** X1.  The two built-in base URLs end with "/": [NewClient] and
    [NewSandboxClient] return exactly the client that [NewCustomClient]
    returns, without an error, for [BaseURL] and for [SandboxBaseURL], after
    the same single call of [url.Parse]. *)
Theorem default_clients_are_custom_clients
    (httpclient : option (HttpClient URLT)) :
  (exists c,
      NewClient httpclient = ([EvURLParse BaseURL], Returns c)
      /\ NewCustomClient httpclient BaseURL
         = ([EvURLParse BaseURL], Returns (Ok c)))
  /\ (exists c,
        NewSandboxClient httpclient = ([EvURLParse SandboxBaseURL], Returns c)
        /\ NewCustomClient httpclient SandboxBaseURL
           = ([EvURLParse SandboxBaseURL], Returns (Ok c))).
Proof.
  unfold NewClient, NewSandboxClient, NewCustomClient.
  rewrite !newClient_fields.
  change (HasSuffix BaseURL "/") with true.
  change (HasSuffix SandboxBaseURL "/") with true.
  split; eexists; split; reflexivity.
Qed.

(** X2.  [NewCustomClient] validates before it parses.  A base URL without
    a trailing slash is refused without a call into net/url.  A base URL
    with one costs one call of [url.Parse] and gives a client whose
    transport is the given one, or [http.DefaultClient] for nil, and whose
    base URL is the parsed URL when parsing succeeds. *)
Theorem NewCustomClient_validates_then_parses
    (httpclient : option (HttpClient URLT)) (base : string) :
  (HasSuffix base "/" = false ->
   exists e, NewCustomClient httpclient base = ([], Returns (Err e)))
  /\ (HasSuffix base "/" = true ->
      exists c,
        NewCustomClient httpclient base = ([EvURLParse base], Returns (Ok c))
        /\ client c = match httpclient with
                      | Some h => h
                      | None => http_DefaultClient
                      end
        /\ (forall u, url_Parse base = Ok u -> baseURL c = Some u)
        /\ (forall e, url_Parse base = Err e -> baseURL c = None)).
Proof.
  unfold NewCustomClient. rewrite newClient_fields. split; intros ->; simpl.
  - eexists. reflexivity.
  - eexists. split; [reflexivity|]. simpl.
    split; [now destruct httpclient|].
    split; intros ? ->; reflexivity.
Qed.

End MoreConstruction.

(* ===================================================================== *)
(** ** More on request construction *)
(* ===================================================================== *)

Section MoreRequests.

Context {L : GoLib}.

(** X3.  Every error that [NewRequest] returns is one of four: the
    invalid-path error for a leading slash; the error of [url.Parse] for
    the path, wrapped with a stack; the error of the JSON encoder for the
    body, as it is; the error of [http.NewRequest], wrapped with a stack.
    Each later one is only reached when the earlier steps passed. *)
Theorem NewRequest_errors
    (c : Client URLT) (method url : string) (body : option BodyValue)
    (opts : list Opt) (e : error) :
  final (NewRequest c method url body opts) = Returns (Err e) ->
  (HasPrefix url "/" = true /\ e = invalid_path)
  \/ (HasPrefix url "/" = false
      /\ exists e', url_Parse url = Err e' /\ e = withStack e')
  \/ (HasPrefix url "/" = false
      /\ exists u b,
           final (URL_Parse (baseURL c) url) = Returns (Ok u)
           /\ body = Some b /\ json_Encode false b = Err e)
  \/ (HasPrefix url "/" = false
      /\ exists u buf e',
           final (URL_Parse (baseURL c) url) = Returns (Ok u)
           /\ payload body = Ok buf
           /\ http_NewRequest method (url_String u) buf = Err e'
           /\ e = withStack e').
Proof.
  rewrite NewRequest_cases. unfold final.
  destruct (HasPrefix url "/"); simpl.
  - intros [= <-]. auto.
  - destruct (url_Parse url) as [ref|e'] eqn:Hp; simpl.
    + destruct (url_ResolveReference (baseURL c) ref) as [u|msg] eqn:Hr;
        simpl; [|discriminate].
      assert (Hu : final (URL_Parse (baseURL c) url) = Returns (Ok u))
        by (apply URL_Parse_final; eauto).
      destruct (payload body) as [buf|e'] eqn:Hb; simpl.
      * destruct (http_NewRequest method (url_String u) buf) as [req|e']
          eqn:Hq; [discriminate|].
        intros [= <-]. right. right. right. split; [reflexivity|].
        exists u, buf, e'. auto.
      * intros [= <-]. right. right. left. split; [reflexivity|].
        unfold payload in Hb. destruct body as [b|]; [|discriminate].
        exists u, b. destruct (json_Encode false b); [discriminate|].
        injection Hb as ->. auto.
    + intros [= <-]. right. left. split; [reflexivity|]. eauto.
Qed.

(** X4.  A path that does not parse is reported first: [NewRequest] returns
    the parse error wrapped with a stack after the single call of
    [url.Parse], whatever the body and the method, and also on a client
    whose base URL is nil, which is not dereferenced then. *)
Theorem NewRequest_unparsable_path
    (c : Client URLT) (method url : string) (body : option BodyValue)
    (opts : list Opt) (e : error) :
  HasPrefix url "/" = false ->
  url_Parse url = Err e ->
  NewRequest c method url body opts
  = ([EvURLParse url], Returns (Err (withStack e))).
Proof. intros Hpre Hp. now rewrite NewRequest_cases, Hpre, Hp. Qed.

(** X5.  With a nil body [NewRequest] never calls the JSON encoder, and
    the request it returns is the one [http.NewRequest] builds without a
    body. *)
Theorem NewRequest_nil_body
    (c : Client URLT) (method url : string) (opts : list Opt) :
  ~ In EvJSONEncode (fst (NewRequest c method url None opts))
  /\ forall req,
       final (NewRequest c method url None opts) = Returns (Ok req) ->
       exists u req0,
         final (URL_Parse (baseURL c) url) = Returns (Ok u)
         /\ http_NewRequest method (url_String u) None = Ok req0
         /\ req = apply_opts opts req0.
Proof.
  rewrite NewRequest_cases. unfold final.
  destruct (HasPrefix url "/"); simpl.
  - split; [tauto | discriminate].
  - destruct (url_Parse url) as [ref|e'] eqn:Hp; simpl.
    + destruct (url_ResolveReference (baseURL c) ref) as [u|msg] eqn:Hr; simpl.
      * split.
        -- intros [H|[H|[H|[H|[]]]]]; discriminate.
        -- destruct (http_NewRequest method (url_String u) None) as [req0|e']
             eqn:Hq; [|discriminate].
           intros req [= <-]. exists u, req0. repeat split; auto.
           apply URL_Parse_final. eauto.
      * split; [|discriminate]. intros [H|[H|[]]]; discriminate.
    + split; [|discriminate]. intros [H|[]]; discriminate.
Qed.


End MoreRequests.

(* ===================================================================== *)
(** ** More on the error predicate *)
(* ===================================================================== *)

Lemma errors_match_ext (es es' : list Error) (codes codes' : list Z) :
  (forall z, In z (map ErrorID es) <-> In z (map ErrorID es')) ->
  (forall z, In z codes <-> In z codes') ->
  errors_match es codes = errors_match es' codes'.
Proof.
  intros He Hc. apply Bool.eq_iff_eq_true. rewrite !errors_match_iff.
  split; intros (e & code & Hin & Hcode & <-).
  - assert (H : In (ErrorID e) (map ErrorID es')) by (apply He, in_map, Hin).
    apply in_map_iff in H. destruct H as (e' & Heq & Hin').
    exists e', (ErrorID e'). rewrite Heq. repeat split; auto. now apply Hc.
  - assert (H : In (ErrorID e) (map ErrorID es)) by (apply He, in_map, Hin).
    apply in_map_iff in H. destruct H as (e' & Heq & Hin').
    exists e', (ErrorID e'). rewrite Heq. repeat split; auto. now apply Hc.
Qed.

Lemma errors_match_app_codes (es : list Error) (c1 c2 : list Z) :
  errors_match es (c1 ++ c2) = errors_match es c1 || errors_match es c2.
Proof.
  apply Bool.eq_iff_eq_true.
  rewrite orb_true_iff, !errors_match_iff. split.
  - intros (e & code & He & Hc & Heq). apply in_app_or in Hc.
    destruct Hc; [left | right]; exists e, code; auto.
  - intros [(e & code & He & Hc & Heq) | (e & code & He & Hc & Heq)];
      exists e, code; (repeat split; auto); apply in_or_app; auto.
Qed.

Lemma errors_match_app_entries (e1 e2 : list Error) (codes : list Z) :
  errors_match (e1 ++ e2) codes = errors_match e1 codes || errors_match e2 codes.
Proof.
  apply Bool.eq_iff_eq_true.
  rewrite orb_true_iff, !errors_match_iff. split.
  - intros (e & code & He & Hc & Heq). apply in_app_or in He.
    destruct He; [left | right]; exists e, code; auto.
  - intros [(e & code & He & Hc & Heq) | (e & code & He & Hc & Heq)];
      exists e, code; (repeat split; auto); apply in_or_app; auto.
Qed.

(** X7.  Asking [IsError] for two lists of codes at once is asking for the
    first list or else for the second, for every error value; and an
    [*ErrorData] with the entries of two lists matches exactly when one
    with the entries of either list does. *)
Theorem IsError_is_a_disjunction
    (err : option error) (c1 c2 : list Z) :
  IsError err (c1 ++ c2) = outcome_orb (IsError err c1) (IsError err c2)
  /\ forall (e1 e2 : list Error) (resp : Response) (dump : string) (codes : list Z),
       IsError (Some (ErrorDataRef (Some (mkErrorData (e1 ++ e2) resp dump)))) codes
       = outcome_orb
           (IsError (Some (ErrorDataRef (Some (mkErrorData e1 resp dump)))) codes)
           (IsError (Some (ErrorDataRef (Some (mkErrorData e2 resp dump)))) codes).
Proof.
  split.
  - destruct err as [[msg|cause|msg|pkg msg|[d|]]|]; simpl; try reflexivity.
    rewrite errors_match_app_codes.
    now destruct (errors_match (Errors d) c1).
  - intros e1 e2 resp dump codes. simpl. rewrite errors_match_app_entries.
    now destruct (errors_match e1 codes).
Qed.

(** X8.  [IsError] looks at nothing but the codes: two [*ErrorData] whose
    entries carry the same set of codes, asked for the same set of codes,
    give the same answer, whatever the order, the repetitions and the other
    fields of the entries, the response and the dump. *)
Theorem IsError_depends_on_code_sets
    (d d' : ErrorData) (codes codes' : list Z) :
  (forall z, In z (map ErrorID (Errors d)) <-> In z (map ErrorID (Errors d'))) ->
  (forall z, In z codes <-> In z codes') ->
  IsError (Some (ErrorDataRef (Some d))) codes
  = IsError (Some (ErrorDataRef (Some d'))) codes'.
Proof. intros He Hc. simpl. f_equal. now apply errors_match_ext. Qed.

(* ===================================================================== *)
(** ** More on the error decoder and the round trip *)
(* ===================================================================== *)

Section MoreRoundTrip.

Context {L : GoLib}.

(** X9.  [IsError] on what [CheckResponse] returns never panics, and it is
    true exactly when the status is outside [200, 300) and one of the
    entries decoded from the body carries one of the codes. *)
Theorem IsError_after_CheckResponse
    (req : Request URLT) (resp : Response) (dump : string) (codes : list Z) :
  exists err resp' answer,
    final (CheckResponse req resp dump) = Returns (err, resp')
    /\ IsError err codes = Returns answer
    /\ (answer = true
        <-> ~ 200 <= StatusCode resp < 300
            /\ exists e code,
                 In e (fst (decoded json_unmarshal_Errors (Body resp) []))
                 /\ In code codes /\ ErrorID e = code).
Proof.
  rewrite CheckResponse_cases.
  destruct ((200 <=? StatusCode resp) && (StatusCode resp <? 300)) eqn:Hr.
  - apply in_range_iff in Hr. exists None, resp, false.
    split; [reflexivity|]. split; [reflexivity|].
    split; [discriminate | intros [Hn _]; now contradiction Hn].
  - assert (Hout : ~ 200 <= StatusCode resp < 300)
      by (rewrite <- in_range_iff, Hr; discriminate).
    eexists _, _, _. split; [reflexivity|]. split; [reflexivity|].
    simpl. rewrite errors_match_iff. tauto.
Qed.

(** X10.  [IsError] on the error of [Do] never panics, and it is true only
    for a response with a status outside [200, 300) whose decoded entries
    carry one of the codes: the error of a failed round trip and the error
    of decoding a 2xx body are wrapped with a stack and never match. *)
Theorem IsError_after_Do
    (c : Client URLT) (ctx : Context) (req : Request URLT) (v : option Dest)
    (codes : list Z) :
  exists r answer,
    final (Do c ctx req v) = Returns r
    /\ IsError (do_err r) codes = Returns answer
    /\ (answer = true
        <-> exists resp,
              client c (WithContext req ctx) = Ok resp
              /\ ~ 200 <= StatusCode resp < 300
              /\ exists e code,
                   In e (fst (decoded json_unmarshal_Errors (Body resp) []))
                   /\ In code codes /\ ErrorID e = code).
Proof.
  rewrite Do_cases.
  destruct (client c (WithContext req ctx)) as [resp|err].
  - destruct ((200 <=? StatusCode resp) && (StatusCode resp <? 300)) eqn:Hr.
    + apply in_range_iff in Hr.
      destruct v as [dest|].
      * eexists _, false. split; [reflexivity|]. simpl. split.
        -- now destruct (snd (decoded json_unmarshal (Body resp) dest)).
        -- split; [discriminate|].
           intros (resp0 & [= <-] & Hn & _). now contradiction Hn.
      * eexists _, false. split; [reflexivity|]. simpl.
        split; [reflexivity|]. split; [discriminate|].
        intros (resp0 & [= <-] & Hn & _). now contradiction Hn.
    + assert (Hout : ~ 200 <= StatusCode resp < 300)
        by (rewrite <- in_range_iff, Hr; discriminate).
      eexists _, _. split; [reflexivity|]. split; [reflexivity|].
      simpl. rewrite errors_match_iff. split.
      * intros H. exists resp. auto.
      * intros (resp0 & [= <-] & _ & H). exact H.
  - eexists _, false. split; [reflexivity|]. simpl. split; [reflexivity|].
    split; [discriminate | intros (resp & H & _); discriminate].
Qed.

(** X11.  [Do] closes the body of every response it receives, once, as its
    last call, on every path; when the round trip fails there is no body
    and nothing is closed. *)
Theorem Do_closes_every_response
    (c : Client URLT) (ctx : Context) (req : Request URLT) (v : option Dest) :
  exists t r,
    Do c ctx req v = (t, Returns r)
    /\ match client c (WithContext req ctx) with
       | Ok resp =>
           exists t' resp',
             t = (t' ++ [EvBodyClose])%list
             /\ ~ In EvBodyClose t'
             /\ do_resp r = Some resp'
             /\ closed (Body resp') = true
             /\ StatusCode resp' = StatusCode resp
       | Err _ => ~ In EvBodyClose t /\ do_resp r = None
       end.
Proof.
  rewrite Do_cases.
  destruct (client c (WithContext req ctx)) as [resp|err].
  - destruct ((200 <=? StatusCode resp) && (StatusCode resp <? 300)).
    + destruct v as [dest|]; eexists _, _; (split; [reflexivity|]).
      * exists [EvDumpRequest; EvClientDo; EvJSONDecode]. eexists.
        split; [reflexivity|]. split; [|simpl; auto].
        intros [H|[H|[H|[]]]]; discriminate.
      * exists [EvDumpRequest; EvClientDo]. eexists.
        split; [reflexivity|]. split; [|simpl; auto].
        intros [H|[H|[]]]; discriminate.
    + eexists _, _. split; [reflexivity|].
      exists [EvDumpRequest; EvClientDo; EvJSONDecode]. eexists.
      split; [reflexivity|]. split; [|simpl; auto].
      intros [H|[H|[H|[]]]]; discriminate.
  - eexists _, _. split; [reflexivity|]. simpl. split; [|reflexivity].
    intros [H|[H|[]]]; discriminate.
Qed.

(** X12.  [Do] returns nil exactly when the round trip succeeded, the
    status is in [200, 300), and either the destination is nil or one
    complete JSON value was read from the body and unmarshalled into the
    destination without an error. *)
Theorem Do_nil_iff
    (c : Client URLT) (ctx : Context) (req : Request URLT) (v : option Dest) :
  exists r,
    final (Do c ctx req v) = Returns r
    /\ (do_err r = None
        <-> exists resp,
              client c (WithContext req ctx) = Ok resp
              /\ 200 <= StatusCode resp < 300
              /\ (v = None
                  \/ exists dest value,
                       v = Some dest
                       /\ Body_readValue (Body resp) = Ok value
                       /\ snd (json_unmarshal value dest) = None)).
Proof.
  rewrite Do_cases.
  destruct (client c (WithContext req ctx)) as [resp|err].
  - destruct ((200 <=? StatusCode resp) && (StatusCode resp <? 300)) eqn:Hr.
    + apply in_range_iff in Hr.
      destruct v as [dest|]; eexists; (split; [reflexivity|]); simpl.
      * unfold decoded.
        destruct (Body_readValue (Body resp)) as [value|e] eqn:Hread; simpl.
        -- split.
           ++ intros H. exists resp. split; [reflexivity|].
              split; [exact Hr|]. right. exists dest, value.
              split; [reflexivity|]. split; [exact Hread|].
              now destruct (snd (json_unmarshal value dest)).
           ++ intros (resp0 & [= <-] & _ & [H | (d0 & v0 & [= <-] & Hv & Hn)]);
                [discriminate|].
              rewrite Hread in Hv. injection Hv as <-. now rewrite Hn.
        -- split; [discriminate|].
           intros (resp0 & [= <-] & _ & [H | (d0 & v0 & _ & Hv & _)]);
             [discriminate|].
           rewrite Hread in Hv. discriminate.
      * split; [|reflexivity]. intros _. exists resp. auto.
    + assert (Hout : ~ 200 <= StatusCode resp < 300)
        by (rewrite <- in_range_iff, Hr; discriminate).
      eexists. split; [reflexivity|]. simpl. split; [discriminate|].
      intros (resp0 & [= <-] & Hin & _). now contradiction Hout.
  - eexists. split; [reflexivity|]. simpl. split; [discriminate|].
    intros (resp & H & _). discriminate.
Qed.

(** X13.  For a status outside [200, 300), the [*ErrorData] that [Do]
    returns carries the dump of the request as it was handed to [Do], taken
    before the round trip, and the empty dump when dumping failed; the
    response it points to has its body closed by the time [Do] returns. *)
Theorem Do_error_carries_dump
    (c : Client URLT) (ctx : Context) (req : Request URLT) (v : option Dest)
    (resp : Response) :
  client c (WithContext req ctx) = Ok resp ->
  ~ 200 <= StatusCode resp < 300 ->
  exists t r d,
    Do c ctx req v = (EvDumpRequest :: EvClientDo :: t, Returns r)
    /\ do_err r = Some (ErrorDataRef (Some d))
    /\ requestDump d = match httputil_DumpRequest req true with
                       | Ok s => s
                       | Err _ => EmptyString
                       end
    /\ Errors d = fst (decoded json_unmarshal_Errors (Body resp) [])
    /\ StatusCode (response d) = StatusCode resp
    /\ closed (Body (response d)) = true.
Proof.
  intros Hc Hout. rewrite Do_cases, Hc, (out_of_range Hout).
  eexists _, _, _. split; [reflexivity|]. simpl. auto.
Qed.

(** X14.  [CheckResponse] never closes the body.  For a status in
    [200, 300) it makes no call at all and leaves the response as it is;
    for any other status it reads the body through one decoder. *)
Theorem CheckResponse_reads_only_on_error
    (req : Request URLT) (resp : Response) (dump : string) :
  exists t err resp',
    CheckResponse req resp dump = (t, Returns (err, resp'))
    /\ closed (Body resp') = closed (Body resp)
    /\ StatusCode resp' = StatusCode resp
    /\ ~ In EvBodyClose t
    /\ (200 <= StatusCode resp < 300 -> t = [] /\ resp' = resp)
    /\ (~ 200 <= StatusCode resp < 300 -> t = [EvJSONDecode]).
Proof.
  rewrite CheckResponse_cases.
  destruct ((200 <=? StatusCode resp) && (StatusCode resp <? 300)) eqn:Hr.
  - apply in_range_iff in Hr. eexists _, _, _. split; [reflexivity|].
    repeat split; auto. intros Hn. now contradiction Hn.
  - assert (Hout : ~ 200 <= StatusCode resp < 300)
      by (rewrite <- in_range_iff, Hr; discriminate).
    eexists _, _, _. split; [reflexivity|]. simpl.
    split; [unfold Body_after_read; now destruct (closed (Body resp)) eqn:E|].
    split; [reflexivity|]. split; [intros [H|[]]; discriminate|].
    split; [intros H; now contradiction Hout | reflexivity].
Qed.

(** X15.  The message of the error that [CheckResponse] returns for a
    status outside [200, 300) is the status code in decimal, a newline,
    the dump, a newline and the decoded entries; when no complete JSON
    value can be read from the body, the last part is [[]]. *)
Theorem Error_message_after_CheckResponse
    (req : Request URLT) (resp : Response) (dump : string) :
  ~ 200 <= StatusCode resp < 300 ->
  exists d resp',
    final (CheckResponse req resp dump)
    = Returns (Some (ErrorDataRef (Some d)), resp')
    /\ GoFmt.ErrorData_Error d
       = (GoFmt.fmt_d (StatusCode resp) ++ GoFmt.newline
          ++ dump ++ GoFmt.newline
          ++ GoFmt.plus_v_slice GoFmt.plus_v_Error
               (fst (decoded json_unmarshal_Errors (Body resp) [])))%string
    /\ (forall e, Body_readValue (Body resp) = Err e ->
          GoFmt.ErrorData_Error d
          = (GoFmt.fmt_d (StatusCode resp) ++ GoFmt.newline
             ++ dump ++ GoFmt.newline ++ "[]")%string).
Proof.
  intros Hout. rewrite CheckResponse_cases, (out_of_range Hout).
  eexists _, _. split; [reflexivity|]. split; [reflexivity|].
  intros e He. unfold GoFmt.ErrorData_Error, decoded. simpl. now rewrite He.
Qed.

End MoreRoundTrip.

(* ===================================================================== *)
(** ** More runs on [Sim] *)
(* ===================================================================== *)


(** X3 at a method that is no HTTP token: the fourth kind of error. *)
Lemma NewRequest_errors_witness :
  final (NewRequest (L := SimLib) Inputs.prod_client "BAD METHOD" "item" None [])
  = Returns (Err (withStack (libError "net/http" "invalid method BAD METHOD")))
  /\ ((HasPrefix "item" "/" = true
       /\ withStack (libError "net/http" "invalid method BAD METHOD")
          = invalid_path)
      \/ (HasPrefix "item" "/" = false
          /\ exists e', @url_Parse SimLib "item" = Err e'
                        /\ withStack (libError "net/http" "invalid method BAD METHOD")
                           = withStack e')
      \/ (HasPrefix "item" "/" = false
          /\ exists u b,
               final (URL_Parse (L := SimLib) (baseURL Inputs.prod_client) "item")
               = Returns (Ok u)
               /\ None = Some b
               /\ @json_Encode SimLib false b
                  = Err (withStack (libError "net/http" "invalid method BAD METHOD")))
      \/ (HasPrefix "item" "/" = false
          /\ exists u buf e',
               final (URL_Parse (L := SimLib) (baseURL Inputs.prod_client) "item")
               = Returns (Ok u)
               /\ payload (L := SimLib) None = Ok buf
               /\ @http_NewRequest SimLib "BAD METHOD" (url_String u) buf = Err e'
               /\ withStack (libError "net/http" "invalid method BAD METHOD")
                  = withStack e')).
Proof.
  split; [reflexivity|].
  apply (NewRequest_errors (L := SimLib) Inputs.prod_client "BAD METHOD" "item"
           None []).
  reflexivity.
Defined.

(** X4 on the client with the nil base URL, at a path with an empty
    scheme before its colon. *)
Lemma NewRequest_unparsable_path_witness :
  HasPrefix ":item" "/" = false
  /\ @url_Parse SimLib ":item" = Err (libError "net/url" "missing protocol scheme")
  /\ NewRequest (L := SimLib) Inputs.broken_client "GET" ":item"
                (Some Sim.VChan) []
     = ([EvURLParse ":item"],
        Returns (Err (withStack (libError "net/url" "missing protocol scheme")))).
Proof.
  split; [reflexivity|]. split; [reflexivity|].
  apply (NewRequest_unparsable_path (L := SimLib) Inputs.broken_client "GET"
           ":item" (Some Sim.VChan) []); reflexivity.
Defined.


(** X8 at two payloads with the codes 5 and 9, in different orders, once
    with a repetition and with other fields set. *)
Lemma IsError_depends_on_code_sets_witness :
  IsError
    (Some (ErrorDataRef (Some
       (mkErrorData [Inputs.error_5; mkError 9 "" "" "" "" "" [] [] []]
                    (Inputs.response 404 "") "a"))))
    [9; 3]
  = IsError
      (Some (ErrorDataRef (Some
         (mkErrorData [mkError 9 "d" "" "" "m" "" [] [] []; Inputs.error_5;
                       mkError 9 "" "" "" "" "" [] [] []]
                      (Inputs.response 500 "x") "b"))))
      [3; 9; 3].
Proof.
  apply IsError_depends_on_code_sets; intros z; simpl; tauto.
Defined.

(** X13 at a 404 response of the mock server. *)
Lemma Do_error_carries_dump_witness :
  ~ 200 <= 404 < 300
  /\ exists t r d,
       Do (L := SimLib)
          (Inputs.mock_client (Inputs.response 404 Inputs.trailing_body))
          Background Inputs.item_request (Some (Sim.mkSearchDest "" 7))
       = (EvDumpRequest :: EvClientDo :: t, Returns r)
       /\ do_err r = Some (ErrorDataRef (Some d))
       /\ requestDump d
          = match @httputil_DumpRequest SimLib Inputs.item_request true with
            | Ok s => s
            | Err _ => EmptyString
            end
       /\ Errors d
          = fst (decoded (L := SimLib) json_unmarshal_Errors
                   (Body (Inputs.response 404 Inputs.trailing_body)) [])
       /\ StatusCode (response d) = 404
       /\ closed (Body (response d)) = true.
Proof.
  split; [lia|].
  apply (Do_error_carries_dump (L := SimLib)
           (Inputs.mock_client (Inputs.response 404 Inputs.trailing_body))
           Background Inputs.item_request (Some (Sim.mkSearchDest "" 7))
           (resp := Inputs.response 404 Inputs.trailing_body)).
  - reflexivity.
  - simpl. lia.
Defined.

(** X15 at a 500 response with an HTML body. *)
Lemma Error_message_after_CheckResponse_witness :
  ~ 200 <= 500 < 300
  /\ exists d resp',
       final (CheckResponse (L := SimLib) Inputs.item_request
                (Inputs.response 500 Inputs.html_body) "dump")
       = Returns (Some (ErrorDataRef (Some d)), resp')
       /\ GoFmt.ErrorData_Error d
          = (GoFmt.fmt_d 500 ++ GoFmt.newline ++ "dump" ++ GoFmt.newline
             ++ GoFmt.plus_v_slice GoFmt.plus_v_Error
                  (fst (decoded (L := SimLib) json_unmarshal_Errors
                          (Body (Inputs.response 500 Inputs.html_body)) [])))%string
       /\ (forall e,
             Body_readValue (L := SimLib)
               (Body (Inputs.response 500 Inputs.html_body)) = Err e ->
             GoFmt.ErrorData_Error d
             = (GoFmt.fmt_d 500 ++ GoFmt.newline ++ "dump" ++ GoFmt.newline
                ++ "[]")%string).
Proof.
  split; [lia|].
  apply (Error_message_after_CheckResponse (L := SimLib) Inputs.item_request
           (Inputs.response 500 Inputs.html_body) "dump").
  simpl. lia.
Defined.

(** The messages of two errors that [CheckResponse] returns. *)
Example Error_messages :
  GoFmt.ErrorData_Error
    (mkErrorData [] (mkResponse 500 (mkBody "" false)) "dump")
  = ("500" ++ GoFmt.newline ++ "dump" ++ GoFmt.newline ++ "[]")%string
  /\ GoFmt.ErrorData_Error
       (mkErrorData [Inputs.error_5] (mkResponse 404 (mkBody "" false)) "dump")
     = ("404" ++ GoFmt.newline ++ "dump" ++ GoFmt.newline
        ++ "[{ErrorID:5 Domain: SubDomain: Category: Message: LongMessage: "
        ++ "InputRefIds:[] OuputRefIds:[] Parameters:[]}]")%string.
Proof. split; vm_compute; reflexivity. Qed.
